(** * The SageMaker prediction gateway ([app.py]), embedded and verified

    The gateway is a FastAPI application with three handlers ([health],
    [ready], [predict]) and one helper, [call_endpoint_with_retry], that
    wraps the remote [invoke_endpoint] call in a bounded retry loop.

    The embedding follows the Python text.  Effects (the remote call, the
    wall clock, [time.sleep]) live in a state-and-exception monad [M] whose
    state records every effect in order; Python's [try]/[except] is
    [catch]; the [for attempt in range(max_retries)] loop is a fixpoint over
    the list [range max_retries]. *)

From Stdlib Require Import ZArith List String Ascii Bool Lia.
From Stdlib Require Import Floats.SpecFloat Floats.PrimFloat Floats.FloatOps.
From Stdlib Require Import DecimalString.
From ExtLib Require Import Structures.Monad Structures.MonadExc.
Import ListNotations.
Import MonadNotation.

Local Open Scope string_scope.
Local Open Scope Z_scope.
Local Open Scope monad_scope.

Set Warnings "-inexact-float".

(** ** Python values *)

(** A Python [float] is an IEEE 754 binary64 number.  [spec_float] is the
    Standard Library's specification of them; comparisons are [SFltb] and
    [SFleb], which are false as soon as one side is NaN, as in Python. *)
Definition float : Type := spec_float.

Definition binary64 (x : float) : Prop := valid_binary prec emax x = true.

Definition float_gt (x y : float) : bool := SFltb y x.
Definition float_le (x y : float) : bool := SFleb x y.
Definition float_sub (x y : float) : float := SFsub prec emax x y.

(** The float literals of [app.py], and those of the spec's examples. *)
Definition lit_5_0 : float := Eval vm_compute in Prim2SF 5.0%float.
Definition lit_0_7 : float := Eval vm_compute in Prim2SF 0.7%float.
Definition lit_0_3 : float := Eval vm_compute in Prim2SF 0.3%float.
Definition lit_0_85 : float := Eval vm_compute in Prim2SF 0.85%float.
Definition lit_0_5 : float := Eval vm_compute in Prim2SF 0.5%float.
Definition lit_0_1 : float := Eval vm_compute in Prim2SF 0.1%float.

Definition bytes : Type := list Byte.byte.

(** A module-level name that holds a string or [None]. *)
Inductive value : Type :=
| VStr (s : string)
| VNone.

(** Truth value of a [value] in an [if]: [None] and [''] are false. *)
Definition truthy (v : value) : bool :=
  match v with
  | VStr s => negb (s =? "")%string
  | VNone => false
  end.

(** A dict literal with string keys, in source order. *)
Definition dict : Type := list (string * value).

(** [str(n)] for a Python int. *)
Definition str_int (n : Z) : string := NilZero.string_of_int (Z.to_int n).

(** [range(n)]: [0, 1, ..., n-1], empty when [n <= 0]. *)
Definition range (n : Z) : list Z := map Z.of_nat (seq 0 (Z.to_nat n)).

(** ** Exceptions *)

(** The [detail] argument of [HTTPException]: [app.py] passes an f-string
    or a dict literal. *)
Inductive detail : Type :=
| DetailStr (s : string)
| DetailDict (d : dict).

(** The exceptions [app.py] raises, catches or lets through.
    - [HTTPException]: FastAPI's, raised by the handlers.
    - [ClientError]: botocore's; [error_code] is
      [e.response['Error']['Code']] and [message] is [str(e)].
    - [PyException]: every other subclass of [Exception]; [cls] is the
      class name and [text] is [str(e)]. *)
Inductive exn : Type :=
| HTTPException (status_code : Z) (detail : detail)
| ClientError (error_code message : string)
| PyException (cls text : string).

Inductive result (A : Type) : Type :=
| Return (a : A)
| Raise (e : exn).
Arguments Return {A} a.
Arguments Raise {A} e.

(** ** The application's data model *)

Record PredictionRequest : Type := { features : list float }.

Record PredictionResponse : Type :=
  { prediction : float;
    confidence : string }.

(** What [invoke_endpoint] returns: [response['Body'].read()] yields the
    raw bytes of the body. *)
Record response : Type := { Body : bytes }.

(** The client handle returned by [boto3.client(service, region_name=...)]. *)
Inductive client : Type :=
| Boto3Client (service region_name : string).

(** The module-level configuration: [ENDPOINT_NAME] and [runtime]. *)
Record Config : Type :=
  { ENDPOINT_NAME : value;
    runtime : option client }.

(** The values [app.py] binds at import time. *)
Definition deployed : Config :=
  {| ENDPOINT_NAME := VStr "shoppers-xgboost-endpoint";
     runtime := Some (Boto3Client "sagemaker-runtime" "us-west-2") |}.

(** ** The outside world *)

(** One call of [runtime.invoke_endpoint] either returns a response or
    raises. *)
Inductive outcome : Type :=
| Responds (r : response)
| Fails (e : exn).

(** The effects of a run, in the order they happen. *)
Inductive event : Type :=
| Invoke (EndpointName : value) (ContentType Body : string)
| Sleep (seconds : Z).

(** [remote n] is what the [n]-th next call of [invoke_endpoint] does and
    [clock n] what the [n]-th next call of [time.time()] returns; both are
    consumed from the front.  [log] is the trace of effects so far. *)
Record world : Type :=
  { remote : nat -> outcome;
    clock : nat -> float;
    log : list event }.

Definition is_invoke (ev : event) : bool :=
  match ev with
  | Invoke _ _ _ => true
  | Sleep _ => false
  end.

(** Number of network calls in a trace. *)
Definition network_calls (l : list event) : nat :=
  List.length (filter is_invoke l).

(** ** The monad of handlers *)

Definition M (A : Type) : Type := world -> result A * world.

#[export] Instance Monad_M : Monad M :=
  {| ret := fun A (a : A) w => (Return a, w);
     bind := fun A B (c : M A) (k : A -> M B) w =>
               match c w with
               | (Return a, w') => k a w'
               | (Raise e, w') => (Raise e, w')
               end |}.

(** [raise e] is Python's [raise]; [catch c h] is [try: c except: h], where
    an exception raised by the handler [h] itself is not caught again. *)
#[export] Instance Exception_M : MonadExc exn M :=
  {| raise := fun A (e : exn) w => (Raise e, w);
     catch := fun A (c : M A) (h : exn -> M A) w =>
                match c w with
                | (Return a, w') => (Return a, w')
                | (Raise e, w') => h e w'
                end |}.

(** The world after one more reading of the clock, one more pause, and one
    more call of [invoke_endpoint]. *)
Definition ticked (w : world) : world :=
  {| remote := remote w;
     clock := fun n => clock w (S n);
     log := log w |}.

Definition slept (seconds : Z) (w : world) : world :=
  {| remote := remote w;
     clock := clock w;
     log := log w ++ [Sleep seconds] |}.

Definition called (ev : event) (w : world) : world :=
  {| remote := fun n => remote w (S n);
     clock := clock w;
     log := log w ++ [ev] |}.

(** [time.time()] *)
Definition time_time : M float :=
  fun w => (Return (clock w 0%nat), ticked w).

(** [time.sleep(seconds)] *)
Definition time_sleep (seconds : Z) : M unit :=
  fun w => (Return tt, slept seconds w).

(** What the runtime does with an exception that leaves a handler, and with
    a returned value: FastAPI answers an [HTTPException] with its status
    code, any other exception with 500, and a returned value with 200. *)
Definition http_status {A : Type} (r : result A) : Z :=
  match r with
  | Return _ => 200
  | Raise (HTTPException status_code _) => status_code
  | Raise _ => 500
  end.

(** ** Builtins and library functions

    Functions of Python and of the libraries that [app.py] calls and that
    are not its own code. *)
Class Builtins : Type :=
  { (** [str(f)] for a float *)
    str_float : float -> string;
    (** [float(s)]: the number, or the text of the [ValueError] *)
    py_float : string -> string + float;
    (** [b.decode()]: the text, or the text of the [UnicodeDecodeError] *)
    bytes_decode : bytes -> string + string;
    (** [s.strip()] *)
    str_strip : string -> string;
    (** [str(e)] for an [HTTPException] *)
    str_HTTPException : Z -> detail -> string }.

Section App.

Context {builtins : Builtins}.
Variable cfg : Config.

(** [str(e)] *)
Definition str_exn (e : exn) : string :=
  match e with
  | HTTPException status_code d => str_HTTPException status_code d
  | ClientError _ message => message
  | PyException _ text => text
  end.

(** [float(s)] as a computation. *)
Definition float_of_str (s : string) : M float :=
  match py_float s with
  | inr x => ret x
  | inl text => raise (PyException "ValueError" text)
  end.

(** [response['Body'].read().decode()] *)
Definition read_decode (r : response) : M string :=
  match bytes_decode (Body r) with
  | inr s => ret s
  | inl text => raise (PyException "UnicodeDecodeError" text)
  end.

(** What [runtime.invoke_endpoint] raises when [runtime] is [None]. *)
Definition no_attribute : exn :=
  PyException "AttributeError"
    "'NoneType' object has no attribute 'invoke_endpoint'".

(** [runtime.invoke_endpoint(EndpointName=..., ContentType=..., Body=...)].
    On [None] the attribute access raises before anything is sent. *)
Definition invoke_endpoint (EndpointName : value) (ContentType body : string)
  : M response :=
  match runtime cfg with
  | None => raise no_attribute
  | Some _ =>
      fun w =>
        let w' := called (Invoke EndpointName ContentType body) w in
        match remote w 0%nat with
        | Responds r => (Return r, w')
        | Fails e => (Raise e, w')
        end
  end.

(** *** [health] (lines 24-27) *)
Definition health : M dict :=
  ret [("status", VStr "healthy"); ("version", VStr "v3.0-cicd")].

(** *** [ready] (lines 29-37) *)
Definition ready : M dict :=
  catch
    (if match runtime cfg with Some _ => true | None => false end
        && truthy (ENDPOINT_NAME cfg)
     then ret [("status", VStr "ready"); ("endpoint", ENDPOINT_NAME cfg)]
     else raise (HTTPException 503 (DetailDict [("status", VStr "not ready")])))
    (fun e =>
       raise (HTTPException 503
                (DetailDict [("status", VStr "not ready");
                             ("error", VStr (str_exn e))]))).

(** *** [call_endpoint_with_retry] (lines 39-76) *)

(** How one pass through the loop body ends: [continue] (or falling off
    the end of the body), or [return response]. *)
Inductive signal : Type :=
| Continue
| Returned (r : response).

(** The body of the [for] loop, lines 44-74. *)
Definition attempt_body (csv_data : string) (max_retries attempt : Z)
  : M signal :=
  catch
    (start_time <- time_time ;;
     response <- invoke_endpoint (ENDPOINT_NAME cfg) "text/csv" csv_data ;;
     now <- time_time ;;
     let elapsed := float_sub now start_time in
     if float_gt elapsed lit_5_0 && (attempt <? max_retries - 1)%Z
     then time_sleep 1 ;; ret Continue
     else ret (Returned response))
    (fun e =>
       match e with
       | ClientError error_code _ =>
           if (error_code =? "ModelError")%string && (attempt <? max_retries - 1)%Z
           then time_sleep (2 ^ attempt) ;; ret Continue
           else raise (HTTPException 503
                         (DetailStr ("Endpoint error: " ++ error_code)))
       | _ =>
           if (attempt =? max_retries - 1)%Z
           then raise (HTTPException 500
                         (DetailStr ("Unexpected error: " ++ str_exn e)))
           else time_sleep (2 ^ attempt) ;; ret Continue
       end).

(** The [for] loop over the attempts still to make, and line 76 after it. *)
Fixpoint retry_loop (csv_data : string) (max_retries : Z) (attempts : list Z)
  : M response :=
  match attempts with
  | [] =>
      raise (HTTPException 503 (DetailStr "Endpoint unavailable after retries"))
  | attempt :: rest =>
      s <- attempt_body csv_data max_retries attempt ;;
      match s with
      | Continue => retry_loop csv_data max_retries rest
      | Returned r => ret r
      end
  end.

Definition call_endpoint_with_retry (features : list float) (max_retries : Z)
  : M response :=
  let csv_data := String.concat "," (map str_float features) in
  retry_loop csv_data max_retries (range max_retries).

(** *** [predict] (lines 78-101) *)

(** Line 96. *)
Definition confidence_level (prediction_value : float) : string :=
  if float_gt prediction_value lit_0_7 then "high"
  else if float_gt prediction_value lit_0_3 then "medium"
  else "low".

Definition predict (request : PredictionRequest) : M PredictionResponse :=
  if negb (Z.of_nat (List.length (features request)) =? 17)%Z
  then raise (HTTPException 400
                (DetailStr ("Expected 17 features, got "
                            ++ str_int (Z.of_nat (List.length (features request))))))
  else
    response <- call_endpoint_with_retry (features request) 3 ;;
    decoded <- read_decode response ;;
    let raw_response := str_strip decoded in
    prediction_value <- float_of_str raw_response ;;
    let confidence := confidence_level prediction_value in
    ret {| prediction := prediction_value; confidence := confidence |}.

End App.

(** ** Vocabulary of the statements *)

Section Vocabulary.

Context {builtins : Builtins}.
Variable cfg : Config.

(** The payload built on line 41. *)
Definition csv_of (features : list float) : string :=
  String.concat "," (map str_float features).

(** The call every attempt makes (lines 46-50). *)
Definition the_call (csv_data : string) : event :=
  Invoke (ENDPOINT_NAME cfg) "text/csv" csv_data.

(** The [for] loop from iteration [attempt] on: the attempts still to make
    are the elements of [range(max_retries)] from index [attempt]. *)
Definition loop_from (csv_data : string) (max_retries attempt : Z)
  : M response :=
  retry_loop cfg csv_data max_retries
    (skipn (Z.to_nat attempt) (range max_retries)).

(** The world once an attempt's call has returned: the clock was read, the
    call made, the clock read again. *)
Definition after_response (csv_data : string) (w : world) : world :=
  ticked (called (the_call csv_data) (ticked w)).

(** The world once an attempt's call has raised: the clock was read and the
    call made. *)
Definition after_failure (csv_data : string) (w : world) : world :=
  called (the_call csv_data) (ticked w).

(** [elapsed] of the attempt that starts in [w], when its call returns. *)
Definition elapsed_in (w : world) : float :=
  float_sub (clock w 1%nat) (clock w 0%nat).

(** Lines 91-92 as a function of the response:
    [float(response['Body'].read().decode().strip())], or the text of the
    exception. *)
Definition body_float (r : response) : string + float :=
  match bytes_decode (Body r) with
  | inl text => inl text
  | inr decoded => py_float (str_strip decoded)
  end.

(** The exhaustion error of line 76. *)
Definition exhausted : exn :=
  HTTPException 503 (DetailStr "Endpoint unavailable after retries").

(** What the final attempt raises for the exception [e] of its call
    (lines 64-67 and 70-73). *)
Definition raised_for (e : exn) : exn :=
  match e with
  | ClientError error_code _ =>
      HTTPException 503 (DetailStr ("Endpoint error: " ++ error_code))
  | _ => HTTPException 500 (DetailStr ("Unexpected error: " ++ str_exn e))
  end.

(** A [ClientError], as opposed to any other exception. *)
Definition classified (e : exn) : bool :=
  match e with
  | ClientError _ _ => true
  | _ => false
  end.

(** An error after which the loop goes on while attempts remain. *)
Definition retryable (e : exn) : bool :=
  match e with
  | ClientError error_code _ => (error_code =? "ModelError")%string
  | _ => true
  end.

End Vocabulary.

(** ** A test double for the builtins, and sample inputs

    [Stub] stands in for Python and the libraries in the examples.  It
    agrees with them on the values the examples use: ASCII bodies, the
    three numerals of the spec's examples, and the float [0.5]. *)

Module Stub.

Definition is_space (ch : ascii) : bool :=
  let n := N_of_ascii ch in
  (((9 <=? n) && (n <=? 13)) || ((28 <=? n) && (n <=? 32)))%N.

Fixpoint lstrip (s : string) : string :=
  match s with
  | String ch s' => if is_space ch then lstrip s' else s
  | EmptyString => EmptyString
  end.

Fixpoint reverse (s acc : string) : string :=
  match s with
  | String ch s' => reverse s' (String ch acc)
  | EmptyString => acc
  end.

Definition strip (s : string) : string :=
  reverse (lstrip (reverse (lstrip s) "")) "".

Definition is_ascii (b : Byte.byte) : bool := (Byte.to_N b <? 128)%N.

Definition decode (b : bytes) : string + string :=
  if forallb is_ascii b
  then inr (string_of_list_byte b)
  else inl "'utf-8' codec can't decode bytes".

Definition to_float (s : string) : string + float :=
  if (s =? "0.85")%string then inr lit_0_85
  else if (s =? "0.5")%string then inr lit_0_5
  else if (s =? "0.1")%string then inr lit_0_1
  else inl ("could not convert string to float: '" ++ s ++ "'").

Definition of_float (x : float) : string :=
  if SFeqb x lit_0_5 then "0.5" else "nan".

Definition repr_value (v : value) : string :=
  match v with
  | VStr s => "'" ++ s ++ "'"
  | VNone => "None"
  end.

Definition repr_dict (d : dict) : string :=
  "{" ++ String.concat ", "
           (map (fun kv => "'" ++ fst kv ++ "': " ++ repr_value (snd kv)) d)
      ++ "}".

Definition of_HTTPException (status_code : Z) (d : detail) : string :=
  str_int status_code ++ ": "
  ++ match d with
     | DetailStr s => s
     | DetailDict items => repr_dict items
     end.

End Stub.

Definition stub : Builtins :=
  {| str_float := Stub.of_float;
     py_float := Stub.to_float;
     bytes_decode := Stub.decode;
     str_strip := Stub.strip;
     str_HTTPException := Stub.of_HTTPException |}.

(** A whole number of seconds on the clock. *)
Definition seconds (n : Z) : float := binary_normalize prec emax n 0 false.

(** A world from a script: what the successive calls do and what the
    successive clock readings are; past the script, calls fail to connect
    and the clock stands at zero. *)
Definition scripted (calls : list outcome) (readings : list Z) : world :=
  {| remote := fun n =>
       nth n calls (Fails (PyException "EndpointConnectionError"
                             "Could not connect to the endpoint URL"));
     clock := fun n => seconds (nth n readings 0);
     log := [] |}.

(** A response whose body is the given text. *)
Definition body_of (text : string) : response :=
  {| Body := list_byte_of_string text |}.

(** A request of 17 features, and one of 3. *)
Definition request17 : PredictionRequest := {| features := repeat lit_0_5 17 |}.
Definition request3 : PredictionRequest := {| features := repeat lit_0_5 3 |}.

Definition csv17 : string :=
  "0.5,0.5,0.5,0.5,0.5,0.5,0.5,0.5,0.5,0.5,0.5,0.5,0.5,0.5,0.5,0.5,0.5".

Definition model_error : exn :=
  ClientError "ModelError"
    "An error occurred (ModelError) when calling the InvokeEndpoint operation".

Definition validation_error : exn :=
  ClientError "ValidationError"
    "An error occurred (ValidationError) when calling the InvokeEndpoint operation".

Definition timeout_error : exn :=
  PyException "ReadTimeoutError" "Read timeout on endpoint URL".

(** Sample worlds: three slow responses; two model errors then a
    response; only model errors; only timeouts; a fatal error; a body that
    is no number; and a world where nothing is scripted. *)
Definition world_slow : world :=
  scripted [Responds (body_of "0.1"); Responds (body_of "0.5");
            Responds (body_of "0.85")]
           [0; 6; 10; 20; 30; 40].

Definition world_slow_last : world :=
  scripted [Responds (body_of "0.85")] [30; 40].

Definition world_flaky : world :=
  scripted [Fails model_error; Fails model_error; Responds (body_of " 0.85 ")]
           [0; 1; 2; 3].

Definition world_model_errors : world :=
  scripted [Fails model_error; Fails model_error; Fails model_error] [0; 1; 2].

Definition world_timeouts : world :=
  scripted [Fails timeout_error; Fails timeout_error; Fails timeout_error]
           [0; 1; 2].

Definition world_fatal : world :=
  scripted [Fails validation_error; Responds (body_of "0.85")] [0; 1; 2].

Definition world_garbled : world :=
  scripted [Responds (body_of "abc")] [0; 1].

Definition idle : world := scripted [] [].

(** A configuration whose client handle is [None]. *)
Definition no_client : Config :=
  {| ENDPOINT_NAME := VStr "shoppers-xgboost-endpoint";
     runtime := None |}.

(** Configurations whose endpoint name is empty, or [None]. *)
Definition empty_name : Config :=
  {| ENDPOINT_NAME := VStr "";
     runtime := Some (Boto3Client "sagemaker-runtime" "us-west-2") |}.

Definition unset_name : Config :=
  {| ENDPOINT_NAME := VNone;
     runtime := Some (Boto3Client "sagemaker-runtime" "us-west-2") |}.

(** ** Vocabulary of the further properties *)

(** The pauses of a trace, in order, and their sum. *)
Fixpoint pauses (l : list event) : list Z :=
  match l with
  | [] => []
  | Sleep seconds :: l' => seconds :: pauses l'
  | Invoke _ _ _ :: l' => pauses l'
  end.

Definition pause_time (l : list event) : Z := fold_right Z.add 0 (pauses l).

(** An effect [call_endpoint_with_retry] can have with the payload [csv]:
    the call of lines 46-50, or a pause. *)
Definition own_event (cfg : Config) (csv : string) (ev : event) : Prop :=
  ev = the_call cfg csv \/ exists s, ev = Sleep s.

(** A pause the loop can make from attempt [k] on: 1 (line 54) or
    [2 ** j] for an attempt [j] that is not the last (lines 62 and 74). *)
Definition backoff_pause (n k s : Z) : Prop :=
  s = 1 \/ exists j, k <= j < n - 1 /\ s = 2 ^ j.

(** Occurrences of a character in a string. *)
Fixpoint count_char (c : ascii) (s : string) : nat :=
  match s with
  | EmptyString => 0%nat
  | String ch s' => ((if Ascii.eqb ch c then 1 else 0) + count_char c s')%nat
  end.

(** The confidence labels in increasing order. *)
Definition label_rank (label : string) : Z :=
  if (label =? "high")%string then 2
  else if (label =? "medium")%string then 1
  else 0.

(** A world whose first call responds within the budget. *)
Definition world_fast : world := scripted [Responds (body_of "0.5")] [0; 1].

(** ** Lemmas *)

Section Lemmas.

Context {builtins : Builtins}.
Variable cfg : Config.

Lemma range_nonpos (n : Z) : n <= 0 -> range n = [].
Proof.
  intros Hn. unfold range.
  replace (Z.to_nat n) with 0%nat by lia. reflexivity.
Qed.

Lemma skipn_range (n k : Z) :
  0 <= k < n ->
  skipn (Z.to_nat k) (range n) = k :: skipn (Z.to_nat (k + 1)) (range n).
Proof.
  intros Hk. unfold range.
  rewrite !skipn_map, !skipn_seq. simpl Nat.add.
  replace (Z.to_nat n - Z.to_nat k)%nat
    with (S (Z.to_nat n - Z.to_nat (k + 1)))%nat by lia.
  simpl seq. simpl map.
  rewrite Z2Nat.id by lia.
  replace (Z.to_nat (k + 1)) with (S (Z.to_nat k)) by lia.
  reflexivity.
Qed.

Lemma call_endpoint_with_retry_loop_from (features : list float) (n : Z) :
  call_endpoint_with_retry cfg features n = loop_from cfg (csv_of features) n 0.
Proof. reflexivity. Qed.

(** One pass through the loop body, by what the call does. *)
Lemma attempt_body_responds csv n k w c r :
  runtime cfg = Some c ->
  remote w 0%nat = Responds r ->
  attempt_body cfg csv n k w =
    if float_gt (elapsed_in w) lit_5_0 && (k <? n - 1)
    then (Return Continue, slept 1 (after_response cfg csv w))
    else (Return (Returned r), after_response cfg csv w).
Proof.
  intros Hc Hr. unfold attempt_body, invoke_endpoint, elapsed_in.
  cbn. rewrite Hc. cbn. rewrite Hr. cbn.
  destruct (float_gt _ _ && _); reflexivity.
Qed.

Lemma attempt_body_client_error csv n k w c code msg :
  runtime cfg = Some c ->
  remote w 0%nat = Fails (ClientError code msg) ->
  attempt_body cfg csv n k w =
    if (code =? "ModelError")%string && (k <? n - 1)
    then (Return Continue, slept (2 ^ k) (after_failure cfg csv w))
    else (Raise (HTTPException 503 (DetailStr ("Endpoint error: " ++ code))),
          after_failure cfg csv w).
Proof.
  intros Hc Hr. unfold attempt_body, invoke_endpoint.
  cbn. rewrite Hc. cbn. rewrite Hr. cbn.
  destruct (_ && _); reflexivity.
Qed.

Lemma attempt_body_other_error csv n k w c e :
  runtime cfg = Some c ->
  remote w 0%nat = Fails e ->
  classified e = false ->
  attempt_body cfg csv n k w =
    if k =? n - 1
    then (Raise (HTTPException 500
                   (DetailStr ("Unexpected error: " ++ str_exn e))),
          after_failure cfg csv w)
    else (Return Continue, slept (2 ^ k) (after_failure cfg csv w)).
Proof.
  intros Hc Hr He. unfold attempt_body, invoke_endpoint.
  cbn. rewrite Hc. cbn. rewrite Hr. cbn.
  destruct e; try discriminate He; destruct (k =? n - 1); reflexivity.
Qed.

Lemma loop_from_step csv n k w :
  0 <= k < n ->
  loop_from cfg csv n k w =
    match attempt_body cfg csv n k w with
    | (Return Continue, w') => loop_from cfg csv n (k + 1) w'
    | (Return (Returned r), w') => (Return r, w')
    | (Raise e, w') => (Raise e, w')
    end.
Proof.
  intros Hk. unfold loop_from. rewrite skipn_range by exact Hk.
  cbn [retry_loop]. unfold bind, Monad_M.
  destruct (attempt_body cfg csv n k w) as [[[|r]|e] w']; reflexivity.
Qed.

(** Python's comparisons on floats: [x <= y] excludes [x > y]. *)
Lemma SFcompare_antisym (x y : float) :
  SFcompare y x = option_map CompOpp (SFcompare x y).
Proof.
  destruct x as [sx|sx| |sx mx ex], y as [sy|sy| |sy my ey]; simpl;
    try reflexivity;
    try (destruct sx; reflexivity);
    try (destruct sy; reflexivity);
    try (destruct sx, sy; reflexivity).
  destruct sx, sy; simpl; try reflexivity;
    rewrite (Z.compare_antisym ex ey);
    destruct (ex ?= ey); simpl; try reflexivity;
    repeat apply f_equal; symmetry;
    exact (Pos.compare_cont_antisym mx my Eq).
Qed.

Lemma float_le_not_gt (x y : float) :
  float_le x y = true -> float_gt x y = false.
Proof.
  unfold float_le, float_gt, SFleb, SFltb.
  rewrite (SFcompare_antisym x y).
  destruct (SFcompare x y) as [[ | | ]|]; simpl; congruence.
Qed.

Lemma float_le_0_3_not_gt_0_7 (x : float) :
  float_le x lit_0_3 = true -> float_gt x lit_0_7 = false.
Proof.
  unfold float_le, float_gt, SFleb, SFltb.
  destruct x as [s|s| |s m e]; try destruct s;
    cbv beta iota delta [SFcompare lit_0_3 lit_0_7]; try congruence.
  destruct (Z.compare_spec e (-54)), (Z.compare_spec (-53) e);
    try lia; try congruence.
Qed.

Ltac count_calls :=
  unfold network_calls; rewrite ?filter_app, ?length_app; cbn; try lia.

(** However one pass through the loop body ends: it goes on only when the
    attempt is not the last one, it never raises the exhaustion error, and
    it makes at most one call. *)
Lemma attempt_body_cases csv n k w :
  match attempt_body cfg csv n k w with
  | (Return Continue, w') =>
      k <> n - 1 /\ (network_calls (log w') <= S (network_calls (log w)))%nat
  | (Return (Returned _), w') =>
      (network_calls (log w') <= S (network_calls (log w)))%nat
  | (Raise e, w') =>
      e <> exhausted
      /\ (network_calls (log w') <= S (network_calls (log w)))%nat
  end.
Proof.
  unfold attempt_body, invoke_endpoint. cbn.
  destruct (runtime cfg) as [c|]; cbn.
  - destruct (remote w 0%nat) as [r|e]; cbn.
    + destruct (float_gt _ _); cbn;
        destruct (Z.ltb_spec k (n - 1)); cbn; try split; count_calls.
    + destruct e as [status d|code msg|cls text];
        try destruct (code =? "ModelError")%string; cbn;
        try destruct (Z.ltb_spec k (n - 1)); cbn;
        try destruct (Z.eqb_spec k (n - 1)); cbn;
        split; try discriminate; count_calls.
  - destruct (Z.eqb_spec k (n - 1)); cbn;
      split; try discriminate; count_calls.
Qed.

(** From any iteration on, the loop ends inside an iteration: it does not
    reach line 76, and it makes at most one call per remaining attempt. *)
Lemma loop_from_never_exhausted csv n (m : nat) :
  forall k w,
    0 <= k < n -> Z.to_nat (n - 1 - k) = m ->
    fst (loop_from cfg csv n k w) <> Raise exhausted
    /\ (network_calls (log (snd (loop_from cfg csv n k w)))
        <= network_calls (log w) + S m)%nat.
Proof.
  induction m as [|m IH]; intros k w Hk Hm;
    rewrite (loop_from_step csv n k w Hk);
    pose proof (attempt_body_cases csv n k w) as Hcases;
    destruct (attempt_body cfg csv n k w) as [[[|r]|e] w1]; cbn [fst snd].
  - destruct Hcases as [Hne _]. lia.
  - split; [discriminate | lia].
  - destruct Hcases as [Hne Hcalls]. split; [congruence | lia].
  - destruct Hcases as [Hne Hcalls].
    destruct (IH (k + 1) w1) as [IH1 IH2]; [lia | lia |].
    split; [exact IH1 | lia].
  - split; [discriminate | lia].
  - destruct Hcases as [Hne Hcalls]. split; [congruence | lia].
Qed.

(** A failed call on an attempt that is not the last: the loop goes on
    after a pause when the error is retryable.  On the last attempt every
    failed call ends the loop with [raised_for]. *)
Lemma attempt_body_retryable csv n k w c e :
  runtime cfg = Some c ->
  remote w 0%nat = Fails e ->
  retryable e = true ->
  k < n - 1 ->
  attempt_body cfg csv n k w
    = (Return Continue, slept (2 ^ k) (after_failure cfg csv w)).
Proof.
  intros Hc Hr He Hk.
  destruct e as [status d|code msg|cls text].
  - rewrite (attempt_body_other_error csv n k w c _ Hc Hr eq_refl).
    destruct (Z.eqb_spec k (n - 1)); [lia | reflexivity].
  - rewrite (attempt_body_client_error csv n k w c code msg Hc Hr).
    cbn in He. rewrite He.
    destruct (Z.ltb_spec k (n - 1)); [reflexivity | lia].
  - rewrite (attempt_body_other_error csv n k w c _ Hc Hr eq_refl).
    destruct (Z.eqb_spec k (n - 1)); [lia | reflexivity].
Qed.

Lemma attempt_body_last_failure csv n w c e :
  runtime cfg = Some c ->
  remote w 0%nat = Fails e ->
  attempt_body cfg csv n (n - 1) w
    = (Raise (raised_for e), after_failure cfg csv w).
Proof.
  intros Hc Hr.
  destruct e as [status d|code msg|cls text].
  - rewrite (attempt_body_other_error csv n (n - 1) w c _ Hc Hr eq_refl).
    rewrite Z.eqb_refl. reflexivity.
  - rewrite (attempt_body_client_error csv n (n - 1) w c code msg Hc Hr).
    rewrite Z.ltb_irrefl, andb_false_r. reflexivity.
  - rewrite (attempt_body_other_error csv n (n - 1) w c _ Hc Hr eq_refl).
    rewrite Z.eqb_refl. reflexivity.
Qed.

Lemma attempt_body_last_response csv n w c r :
  runtime cfg = Some c ->
  remote w 0%nat = Responds r ->
  attempt_body cfg csv n (n - 1) w
    = (Return (Returned r), after_response cfg csv w).
Proof.
  intros Hc Hr.
  rewrite (attempt_body_responds csv n (n - 1) w c r Hc Hr).
  rewrite Z.ltb_irrefl, andb_false_r. reflexivity.
Qed.

(** Without a client handle no call is made: the attribute error takes the
    path of the unclassified errors. *)
Lemma attempt_body_no_client csv n k w :
  runtime cfg = None ->
  attempt_body cfg csv n k w =
    if k =? n - 1
    then (Raise (raised_for no_attribute), ticked w)
    else (Return Continue, slept (2 ^ k) (ticked w)).
Proof.
  intros Hc. unfold attempt_body, invoke_endpoint.
  cbn. rewrite Hc. cbn.
  destruct (k =? n - 1); reflexivity.
Qed.

Lemma raised_for_not_exhausted e : raised_for e <> exhausted.
Proof. destruct e; discriminate. Qed.

(** [predict] passes on what [call_endpoint_with_retry] raises. *)
Lemma predict_retry_raises request w e w' :
  List.length (features request) = 17%nat ->
  call_endpoint_with_retry cfg (features request) 3 w = (Raise e, w') ->
  predict cfg request w = (Raise e, w').
Proof.
  intros Hlen Hcall. unfold predict. rewrite Hlen.
  change (negb (Z.of_nat 17 =? 17)) with false. cbv iota.
  unfold bind, Monad_M. rewrite Hcall. reflexivity.
Qed.

(** What [predict] does once [call_endpoint_with_retry] has returned. *)
Lemma predict_retry_returns request w r w' :
  List.length (features request) = 17%nat ->
  call_endpoint_with_retry cfg (features request) 3 w = (Return r, w') ->
  predict cfg request w =
    (match body_float r with
     | inr p => Return {| prediction := p; confidence := confidence_level p |}
     | inl text =>
         Raise (PyException
                  match bytes_decode (Body r) with
                  | inl _ => "UnicodeDecodeError"
                  | inr _ => "ValueError"
                  end text)
     end, w').
Proof.
  intros Hlen Hcall. unfold predict. rewrite Hlen.
  change (negb (Z.of_nat 17 =? 17)) with false. cbv iota.
  unfold bind, Monad_M. rewrite Hcall.
  unfold body_float, read_decode, float_of_str.
  destruct (bytes_decode (Body r)) as [text|decoded]; [reflexivity|].
  cbn. destruct (py_float (str_strip decoded)); reflexivity.
Qed.

End Lemmas.

(** ** Sanity checks of the embedding *)

Example range_3 : range 3 = [0; 1; 2].
Proof. reflexivity. Qed.

Example range_negative : range (-2) = [].
Proof. reflexivity. Qed.

Example str_int_17 : str_int 17 = "17".
Proof. reflexivity. Qed.

Example csv17_is_joined : @csv_of stub (features request17) = csv17.
Proof. vm_compute. reflexivity. Qed.

Example five_seconds_is_not_slow :
  float_gt (float_sub (seconds 5) (seconds 0)) lit_5_0 = false.
Proof. vm_compute. reflexivity. Qed.

Example six_seconds_is_slow :
  float_gt (float_sub (seconds 6) (seconds 0)) lit_5_0 = true.
Proof. vm_compute. reflexivity. Qed.

Example nan_is_low : confidence_level S754_nan = "low".
Proof. reflexivity. Qed.

Example predict_fast_success :
  fst (@predict stub deployed request17
         (scripted [Responds (body_of "0.5")] [0; 1]))
  = Return {| prediction := lit_0_5; confidence := "medium" |}.
Proof. vm_compute. reflexivity. Qed.

Example predict_slow_then_fast :
  let out := @predict stub deployed request17
               (scripted [Responds (body_of "0.1"); Responds (body_of "0.85")]
                         [0; 6; 7; 8]) in
  fst out = Return {| prediction := lit_0_85; confidence := "high" |}
  /\ log (snd out)
     = [the_call deployed csv17; Sleep 1; the_call deployed csv17].
Proof. vm_compute. split; reflexivity. Qed.

Example predict_without_client :
  let out := @predict stub no_client request17 world_slow in
  fst out = Raise (@raised_for stub no_attribute)
  /\ log (snd out) = [Sleep 1; Sleep 2].
Proof. vm_compute. split; reflexivity. Qed.

(** ** The claims *)

Section Claims.

Context {builtins : Builtins}.
Variable cfg : Config.

(** C3.  For every feature sequence whose length is not 17, [predict]
    raises [HTTPException] with status 400 and a detail that names the
    expected count, 17, and the actual count; the world is left exactly as
    it was, so no call of the remote endpoint is made. *)
Theorem predict_wrong_feature_count request w :
  List.length (features request) <> 17%nat ->
  predict cfg request w =
    (Raise (HTTPException 400
              (DetailStr ("Expected 17 features, got "
                          ++ str_int (Z.of_nat (List.length (features request)))))),
     w)
  /\ http_status (fst (predict cfg request w)) = 400
  /\ network_calls (log (snd (predict cfg request w))) = network_calls (log w).
Proof.
  intros Hlen.
  assert (Hp : predict cfg request w =
    (Raise (HTTPException 400
              (DetailStr ("Expected 17 features, got "
                          ++ str_int (Z.of_nat (List.length (features request)))))),
     w)).
  { unfold predict.
    destruct (Z.eqb_spec (Z.of_nat (List.length (features request))) 17) as [E|E].
    - exfalso. apply Hlen. lia.
    - reflexivity. }
  rewrite Hp. repeat split.
Qed.

(** C4.  The confidence label that [predict] attaches to a parsed
    prediction value [p] is "high" when [p > 0.7], "medium" when
    [0.3 < p <= 0.7] and "low" when [p <= 0.3]; 0.85 is labelled "high",
    0.5 "medium" and 0.1 "low". *)
Theorem confidence_level_thresholds (p : float) :
  (forall request w resp w',
      predict cfg request w = (Return resp, w') ->
      confidence resp = confidence_level (prediction resp))
  /\ (float_gt p lit_0_7 = true -> confidence_level p = "high")
  /\ (float_gt p lit_0_3 = true -> float_le p lit_0_7 = true ->
      confidence_level p = "medium")
  /\ (float_le p lit_0_3 = true -> confidence_level p = "low")
  /\ confidence_level lit_0_85 = "high"
  /\ confidence_level lit_0_5 = "medium"
  /\ confidence_level lit_0_1 = "low".
Proof.
  split; [|repeat split].
  - intros request w resp w'. unfold predict.
    destruct (negb _); [discriminate|].
    unfold bind, Monad_M.
    destruct (call_endpoint_with_retry _ _ _ _) as [[r|e] w1]; [|discriminate].
    destruct (read_decode r w1) as [[decoded|e] w2]; [|discriminate].
    destruct (float_of_str _ w2) as [[x|e] w3]; [|discriminate].
    cbn. intros H. injection H as <- _. reflexivity.
  - intros Hhigh. unfold confidence_level. rewrite Hhigh. reflexivity.
  - intros Hlow Hle. unfold confidence_level.
    rewrite (float_le_not_gt _ _ Hle), Hlow. reflexivity.
  - intros Hle. unfold confidence_level.
    rewrite (float_le_0_3_not_gt_0_7 _ Hle), (float_le_not_gt _ _ Hle).
    reflexivity.
Qed.

(** C1.  In [call_endpoint_with_retry], take any attempt whose call
    returns a response with [elapsed > 5.0].  While attempts remain
    ([attempt < max_retries - 1]) the response is dropped, [time.sleep(1)]
    runs, and the loop goes on with the next attempt; on the final attempt
    the slow response is returned. *)
Theorem slow_success_retried_unless_final csv max_retries attempt w c r :
  runtime cfg = Some c ->
  0 <= attempt < max_retries ->
  remote w 0%nat = Responds r ->
  float_gt (elapsed_in w) lit_5_0 = true ->
  loop_from cfg csv max_retries attempt w =
    (if attempt <? max_retries - 1
     then loop_from cfg csv max_retries (attempt + 1)
            (slept 1 (after_response cfg csv w))
     else (Return r, after_response cfg csv w))
  /\ log (slept 1 (after_response cfg csv w))
     = (log w ++ [the_call cfg csv; Sleep 1])%list
  /\ log (after_response cfg csv w) = (log w ++ [the_call cfg csv])%list.
Proof.
  intros Hc Hk Hr Hslow. split; [|split].
  - rewrite (loop_from_step cfg csv max_retries attempt w Hk).
    rewrite (attempt_body_responds cfg csv max_retries attempt w c r Hc Hr).
    rewrite Hslow. cbn [andb].
    destruct (attempt <? max_retries - 1); reflexivity.
  - cbn. rewrite <- app_assoc. reflexivity.
  - reflexivity.
Qed.

(** C2.  With 17 features (so [max_retries = 3]): if the first two calls
    raise [ClientError] with code "ModelError" and the third returns a body
    that reads as the float [p], then [predict] returns [p] with its label,
    answered with 200, and the effects are: call, pause of [2^0 = 1], call,
    pause of [2^1 = 2], call.  The latency of the third call plays no role,
    the third attempt being the last. *)
Theorem model_error_twice_then_success request w c msg1 msg2 r p :
  runtime cfg = Some c ->
  List.length (features request) = 17%nat ->
  remote w 0%nat = Fails (ClientError "ModelError" msg1) ->
  remote w 1%nat = Fails (ClientError "ModelError" msg2) ->
  remote w 2%nat = Responds r ->
  body_float r = inr p ->
  let call := the_call cfg (csv_of (features request)) in
  fst (predict cfg request w)
    = Return {| prediction := p; confidence := confidence_level p |}
  /\ http_status (fst (predict cfg request w)) = 200
  /\ log (snd (predict cfg request w))
     = (log w ++ [call; Sleep 1; call; Sleep 2; call])%list.
Proof.
  intros Hc Hlen H0 H1 H2 Hp call.
  set (csv := csv_of (features request)).
  set (w1 := slept (2 ^ 0) (after_failure cfg csv w)).
  set (w2 := slept (2 ^ 1) (after_failure cfg csv w1)).
  assert (Hcall : call_endpoint_with_retry cfg (features request) 3 w
                  = (Return r, after_response cfg csv w2)).
  { rewrite call_endpoint_with_retry_loop_from. fold csv.
    rewrite (loop_from_step cfg csv 3 0 w) by lia.
    rewrite (attempt_body_client_error cfg csv 3 0 w c _ msg1 Hc H0).
    cbn [String.eqb Ascii.eqb Bool.eqb andb Z.ltb Z.sub Z.compare Z.add
         Z.opp Z.pos_sub Pos.compare Pos.compare_cont Pos.pred_double].
    change (0 + 1) with 1. fold w1.
    rewrite (loop_from_step cfg csv 3 1 w1) by lia.
    rewrite (attempt_body_client_error cfg csv 3 1 w1 c _ msg2 Hc H1).
    cbn [String.eqb Ascii.eqb Bool.eqb andb Z.ltb Z.sub Z.compare Z.add
         Z.opp Z.pos_sub Pos.compare Pos.compare_cont Pos.pred_double].
    change (1 + 1) with 2. fold w2.
    rewrite (loop_from_step cfg csv 3 2 w2) by lia.
    rewrite (attempt_body_responds cfg csv 3 2 w2 c r Hc H2).
    change (2 <? 3 - 1) with false. rewrite andb_false_r. reflexivity. }
  rewrite (predict_retry_returns cfg request w r _ Hlen Hcall), Hp.
  cbn [fst snd http_status]. repeat split.
  cbn. rewrite <- !app_assoc. reflexivity.
Qed.

(** C5.  In [call_endpoint_with_retry], take any attempt whose call raises
    [ClientError] with a code other than "ModelError".  The function fails
    there and then with [HTTPException] 503 whose detail is
    "Endpoint error: " followed by the code; that call is the last effect,
    so no further attempt is made. *)
Theorem fatal_remote_error_fails_at_once csv max_retries attempt w c code msg :
  runtime cfg = Some c ->
  0 <= attempt < max_retries ->
  remote w 0%nat = Fails (ClientError code msg) ->
  code <> "ModelError" ->
  loop_from cfg csv max_retries attempt w =
    (Raise (HTTPException 503 (DetailStr ("Endpoint error: " ++ code))),
     after_failure cfg csv w)
  /\ http_status (fst (loop_from cfg csv max_retries attempt w)) = 503
  /\ log (snd (loop_from cfg csv max_retries attempt w))
     = (log w ++ [the_call cfg csv])%list.
Proof.
  intros Hc Hk Hr Hcode.
  rewrite (loop_from_step cfg csv max_retries attempt w Hk).
  rewrite (attempt_body_client_error cfg csv max_retries attempt w c code msg Hc Hr).
  destruct (String.eqb_spec code "ModelError") as [E|E]; [contradiction|].
  cbn [andb fst snd http_status]. repeat split.
Qed.

(** C6.  In [call_endpoint_with_retry], take any attempt whose call raises
    an exception that is not a [ClientError].  On a non-final attempt
    [time.sleep(2 ** attempt)] runs and the loop goes on with the next
    attempt; on the final attempt the function raises [HTTPException] 500
    whose detail is "Unexpected error: " followed by [str(e)]. *)
Theorem unclassified_error_policy csv max_retries attempt w c e :
  runtime cfg = Some c ->
  0 <= attempt < max_retries ->
  remote w 0%nat = Fails e ->
  classified e = false ->
  loop_from cfg csv max_retries attempt w =
    (if attempt =? max_retries - 1
     then (Raise (HTTPException 500
                    (DetailStr ("Unexpected error: " ++ str_exn e))),
           after_failure cfg csv w)
     else loop_from cfg csv max_retries (attempt + 1)
            (slept (2 ^ attempt) (after_failure cfg csv w)))
  /\ log (slept (2 ^ attempt) (after_failure cfg csv w))
     = (log w ++ [the_call cfg csv; Sleep (2 ^ attempt)])%list.
Proof.
  intros Hc Hk Hr He. split.
  - rewrite (loop_from_step cfg csv max_retries attempt w Hk).
    rewrite (attempt_body_other_error cfg csv max_retries attempt w c e Hc Hr He).
    destruct (attempt =? max_retries - 1); reflexivity.
  - cbn. rewrite <- app_assoc. reflexivity.
Qed.

(** C7, amended.  With 17 features (so [max_retries = 3]): if every one
    of the three calls raises, and the first two errors are retryable (so
    that every attempt is made), then [predict] fails with the error of the
    final attempt: [HTTPException] 503 with detail "Endpoint error: <code>"
    when the third call raised a [ClientError], and [HTTPException] 500
    with detail "Unexpected error: <text>" otherwise.  The detail is never
    "Endpoint unavailable after retries". *)
Theorem exhaustion_reports_final_error request w c e0 e1 e2 :
  runtime cfg = Some c ->
  List.length (features request) = 17%nat ->
  remote w 0%nat = Fails e0 ->
  remote w 1%nat = Fails e1 ->
  remote w 2%nat = Fails e2 ->
  retryable e0 = true ->
  retryable e1 = true ->
  let call := the_call cfg (csv_of (features request)) in
  fst (predict cfg request w) = Raise (raised_for e2)
  /\ fst (predict cfg request w) <> Raise exhausted
  /\ http_status (fst (predict cfg request w))
     = (if classified e2 then 503 else 500)
  /\ log (snd (predict cfg request w))
     = (log w ++ [call; Sleep 1; call; Sleep 2; call])%list.
Proof.
  intros Hc Hlen H0 H1 H2 R0 R1 call.
  set (csv := csv_of (features request)).
  set (w1 := slept (2 ^ 0) (after_failure cfg csv w)).
  set (w2 := slept (2 ^ 1) (after_failure cfg csv w1)).
  assert (Hcall : call_endpoint_with_retry cfg (features request) 3 w
                  = (Raise (raised_for e2), after_failure cfg csv w2)).
  { rewrite call_endpoint_with_retry_loop_from. fold csv.
    rewrite (loop_from_step cfg csv 3 0 w) by lia.
    rewrite (attempt_body_retryable cfg csv 3 0 w c e0 Hc H0 R0) by lia.
    change (0 + 1) with 1. fold w1.
    rewrite (loop_from_step cfg csv 3 1 w1) by lia.
    rewrite (attempt_body_retryable cfg csv 3 1 w1 c e1 Hc H1 R1) by lia.
    change (1 + 1) with 2. fold w2.
    rewrite (loop_from_step cfg csv 3 2 w2) by lia.
    change 2 with (3 - 1) at 2.
    rewrite (attempt_body_last_failure cfg csv 3 w2 c e2 Hc H2).
    reflexivity. }
  rewrite (predict_retry_raises cfg request w _ _ Hlen Hcall).
  cbn [fst snd]. repeat split.
  - intros H. injection H as H. exact (raised_for_not_exhausted e2 H).
  - destruct e2; reflexivity.
  - cbn. rewrite <- !app_assoc. reflexivity.
Qed.

(** C8, amended.  [ready] returns the "ready" body with the endpoint name,
    answered with 200, exactly when the client handle is not [None] and the
    endpoint name is neither empty nor [None]; in every other case it raises
    [HTTPException] with status 503.  In both cases the world is left as it
    was: no call of the remote endpoint is made. *)
Theorem ready_iff_configured w :
  (runtime cfg <> None -> truthy (ENDPOINT_NAME cfg) = true ->
   ready cfg w =
     (Return [("status", VStr "ready"); ("endpoint", ENDPOINT_NAME cfg)], w)
   /\ http_status (fst (ready cfg w)) = 200)
  /\ (runtime cfg = None \/ truthy (ENDPOINT_NAME cfg) = false ->
      ready cfg w =
        (Raise (HTTPException 503
                  (DetailDict
                     [("status", VStr "not ready");
                      ("error",
                       VStr (str_HTTPException 503
                               (DetailDict [("status", VStr "not ready")])))])),
         w)
      /\ http_status (fst (ready cfg w)) = 503)
  /\ snd (ready cfg w) = w.
Proof.
  unfold ready. cbn.
  destruct (runtime cfg) as [c|], (truthy (ENDPOINT_NAME cfg)); cbn;
    repeat split; try reflexivity; try congruence;
    intros; try intuition congruence.
Qed.

(** C9.  Once [call_endpoint_with_retry] has returned a response,
    [predict] reads its body as one float: when the decoded, stripped body
    is a float [p], the prediction is [p]; when it is not, [predict] raises
    the exception of the failed conversion, which is answered with 500,
    and returns no value. *)
Theorem unparsable_body_is_internal_error request w r w' :
  List.length (features request) = 17%nat ->
  call_endpoint_with_retry cfg (features request) 3 w = (Return r, w') ->
  (forall p, body_float r = inr p ->
     predict cfg request w =
       (Return {| prediction := p; confidence := confidence_level p |}, w'))
  /\ (forall text, body_float r = inl text ->
       (exists cls, predict cfg request w = (Raise (PyException cls text), w'))
       /\ http_status (fst (predict cfg request w)) = 500
       /\ (forall resp, fst (predict cfg request w) <> Return resp)).
Proof.
  intros Hlen Hcall.
  rewrite (predict_retry_returns cfg request w r w' Hlen Hcall).
  split.
  - intros p Hp. rewrite Hp. reflexivity.
  - intros text Ht. rewrite Ht. cbn. repeat split.
    + eexists. reflexivity.
    + discriminate.
Qed.

(** C10.  [call_endpoint_with_retry] raises the exhaustion error of line
    76 if and only if [max_retries <= 0], and then without any effect.  For
    [max_retries >= 1] the loop ends inside an iteration, after at most
    [max_retries] calls; on the final attempt a response, slow or fast, is
    returned and every exception of the call is turned into a raised
    [HTTPException] (also the one raised for want of a client handle). *)
Theorem final_attempt_decides features max_retries w :
  (fst (call_endpoint_with_retry cfg features max_retries w) = Raise exhausted
   <-> max_retries <= 0)
  /\ (max_retries <= 0 ->
      call_endpoint_with_retry cfg features max_retries w = (Raise exhausted, w))
  /\ (1 <= max_retries ->
      (network_calls (log (snd (call_endpoint_with_retry cfg features max_retries w)))
       <= network_calls (log w) + Z.to_nat max_retries)%nat)
  /\ (1 <= max_retries ->
      forall csv w',
        loop_from cfg csv max_retries (max_retries - 1) w' =
          match runtime cfg, remote w' 0%nat with
          | Some _, Responds r => (Return r, after_response cfg csv w')
          | Some _, Fails e => (Raise (raised_for e), after_failure cfg csv w')
          | None, _ => (Raise (raised_for no_attribute), ticked w')
          end).
Proof.
  assert (Hzero : max_retries <= 0 ->
            call_endpoint_with_retry cfg features max_retries w
            = (Raise exhausted, w)).
  { intros Hn. unfold call_endpoint_with_retry.
    rewrite (range_nonpos max_retries Hn). reflexivity. }
  assert (Hpos : 1 <= max_retries ->
            fst (call_endpoint_with_retry cfg features max_retries w)
              <> Raise exhausted
            /\ (network_calls
                  (log (snd (call_endpoint_with_retry cfg features max_retries w)))
                <= network_calls (log w) + Z.to_nat max_retries)%nat).
  { intros Hn. rewrite call_endpoint_with_retry_loop_from.
    destruct (loop_from_never_exhausted cfg (csv_of features) max_retries
                (Z.to_nat (max_retries - 1 - 0)) 0 w) as [H1 H2];
      [lia | reflexivity |].
    split; [exact H1 | lia]. }
  split; [|split; [|split]].
  - split.
    + intros H. destruct (Z.le_gt_cases max_retries 0) as [Hn|Hn]; [exact Hn|].
      exfalso. apply (proj1 (Hpos ltac:(lia))). exact H.
    + intros Hn. rewrite (Hzero Hn). reflexivity.
  - exact Hzero.
  - intros Hn. exact (proj2 (Hpos Hn)).
  - intros Hn csv w'.
    rewrite (loop_from_step cfg csv max_retries (max_retries - 1) w') by lia.
    destruct (runtime cfg) as [c|] eqn:Hc.
    + destruct (remote w' 0%nat) as [r|e] eqn:Hr.
      * rewrite (attempt_body_last_response cfg csv max_retries w' c r Hc Hr).
        reflexivity.
      * rewrite (attempt_body_last_failure cfg csv max_retries w' c e Hc Hr).
        reflexivity.
    + rewrite (attempt_body_no_client cfg csv max_retries _ w' Hc).
      rewrite Z.eqb_refl. reflexivity.
Qed.

End Claims.

(** ** Counterexamples *)

(** C7 as stated fails.  When all three calls raise the retryable
    "ModelError", every attempt is made and none succeeds, yet the detail of
    the 503 is "Endpoint error: ModelError", not the exhaustion message; and
    when all three calls time out the answer is 500, not 503. *)
Lemma exhaustion_message_counterexample :
  network_calls (log (snd (@predict stub deployed request17 world_model_errors)))
    = 3%nat
  /\ fst (@predict stub deployed request17 world_model_errors)
     = Raise (HTTPException 503 (DetailStr "Endpoint error: ModelError"))
  /\ fst (@predict stub deployed request17 world_model_errors)
     <> Raise (HTTPException 503 (DetailStr "Endpoint unavailable after retries"))
  /\ network_calls (log (snd (@predict stub deployed request17 world_timeouts)))
     = 3%nat
  /\ http_status (fst (@predict stub deployed request17 world_timeouts)) = 500.
Proof.
  vm_compute. repeat split. discriminate.
Qed.

(** C8 as stated fails.  With a non-empty endpoint name but no client
    handle, [ready] answers 503, not 200. *)
Lemma ready_without_client_counterexample :
  truthy (ENDPOINT_NAME no_client) = true
  /\ runtime no_client = None
  /\ http_status (fst (@ready stub no_client idle)) = 503
  /\ forall body, fst (@ready stub no_client idle) <> Return body.
Proof.
  vm_compute. repeat split. discriminate.
Qed.

(** ** The claims at sample inputs *)

Lemma slow_success_retried_unless_final_witness :
  (float_gt (elapsed_in world_slow) lit_5_0 = true
   /\ @loop_from stub deployed csv17 3 0 world_slow
      = @loop_from stub deployed csv17 3 1
          (slept 1 (after_response deployed csv17 world_slow)))
  /\ (float_gt (elapsed_in world_slow_last) lit_5_0 = true
      /\ @loop_from stub deployed csv17 3 2 world_slow_last
         = (Return (body_of "0.85"),
            after_response deployed csv17 world_slow_last)).
Proof.
  split; (split; [vm_compute; reflexivity|]).
  - exact (proj1 (@slow_success_retried_unless_final stub deployed csv17 3 0
                    world_slow _ (body_of "0.1")
                    eq_refl ltac:(lia) eq_refl ltac:(vm_compute; reflexivity))).
  - exact (proj1 (@slow_success_retried_unless_final stub deployed csv17 3 2
                    world_slow_last _ (body_of "0.85")
                    eq_refl ltac:(lia) eq_refl ltac:(vm_compute; reflexivity))).
Defined.

Lemma model_error_twice_then_success_witness :
  fst (@predict stub deployed request17 world_flaky)
    = Return {| prediction := lit_0_85; confidence := "high" |}
  /\ http_status (fst (@predict stub deployed request17 world_flaky)) = 200
  /\ log (snd (@predict stub deployed request17 world_flaky))
     = [the_call deployed csv17; Sleep 1; the_call deployed csv17; Sleep 2;
        the_call deployed csv17].
Proof.
  exact (@model_error_twice_then_success stub deployed request17 world_flaky
           _ _ _ (body_of " 0.85 ") lit_0_85
           eq_refl eq_refl eq_refl eq_refl eq_refl
           ltac:(vm_compute; reflexivity)).
Defined.

Lemma predict_wrong_feature_count_witness :
  List.length (features request3) <> 17%nat
  /\ @predict stub deployed request3 idle
     = (Raise (HTTPException 400 (DetailStr "Expected 17 features, got 3")),
        idle).
Proof.
  assert (H : List.length (features request3) <> 17%nat) by (cbn; lia).
  split; [exact H|].
  exact (proj1 (@predict_wrong_feature_count stub deployed request3 idle H)).
Defined.

Lemma confidence_level_thresholds_witness :
  confidence_level lit_0_85 = "high"
  /\ confidence_level lit_0_5 = "medium"
  /\ confidence_level lit_0_1 = "low"
  /\ confidence {| prediction := lit_0_85; confidence := "high" |}
     = confidence_level lit_0_85.
Proof.
  split; [|split; [|split]].
  - apply (proj1 (proj2 (@confidence_level_thresholds stub deployed lit_0_85))).
    vm_compute; reflexivity.
  - apply (proj1 (proj2 (proj2
             (@confidence_level_thresholds stub deployed lit_0_5))));
      vm_compute; reflexivity.
  - apply (proj1 (proj2 (proj2 (proj2
             (@confidence_level_thresholds stub deployed lit_0_1))))).
    vm_compute; reflexivity.
  - exact (proj1 (@confidence_level_thresholds stub deployed lit_0_85)
             request17 world_flaky
             {| prediction := lit_0_85; confidence := "high" |}
             (snd (@predict stub deployed request17 world_flaky))
             ltac:(vm_compute; reflexivity)).
Defined.

Lemma fatal_remote_error_fails_at_once_witness :
  @loop_from stub deployed csv17 3 0 world_fatal
    = (Raise (HTTPException 503 (DetailStr "Endpoint error: ValidationError")),
       after_failure deployed csv17 world_fatal)
  /\ log (snd (@loop_from stub deployed csv17 3 0 world_fatal))
     = [the_call deployed csv17].
Proof.
  pose proof (@fatal_remote_error_fails_at_once stub deployed csv17 3 0
                world_fatal _ "ValidationError" _
                eq_refl ltac:(lia) eq_refl ltac:(discriminate)) as [H1 [_ H3]].
  split; [exact H1 | exact H3].
Defined.

Lemma unclassified_error_policy_witness :
  @loop_from stub deployed csv17 3 0 world_timeouts
    = @loop_from stub deployed csv17 3 1
        (slept 1 (after_failure deployed csv17 world_timeouts))
  /\ @loop_from stub deployed csv17 3 2 world_timeouts
     = (Raise (HTTPException 500
                 (DetailStr "Unexpected error: Read timeout on endpoint URL")),
        after_failure deployed csv17 world_timeouts).
Proof.
  split.
  - exact (proj1 (@unclassified_error_policy stub deployed csv17 3 0
                    world_timeouts _ timeout_error
                    eq_refl ltac:(lia) eq_refl eq_refl)).
  - exact (proj1 (@unclassified_error_policy stub deployed csv17 3 2
                    world_timeouts _ timeout_error
                    eq_refl ltac:(lia) eq_refl eq_refl)).
Defined.

Lemma exhaustion_reports_final_error_witness :
  fst (@predict stub deployed request17 world_model_errors)
    = Raise (HTTPException 503 (DetailStr "Endpoint error: ModelError"))
  /\ fst (@predict stub deployed request17 world_timeouts)
     = Raise (HTTPException 500
                (DetailStr "Unexpected error: Read timeout on endpoint URL")).
Proof.
  split.
  - exact (proj1 (@exhaustion_reports_final_error stub deployed request17
                    world_model_errors _ model_error model_error model_error
                    eq_refl eq_refl eq_refl eq_refl eq_refl eq_refl eq_refl)).
  - exact (proj1 (@exhaustion_reports_final_error stub deployed request17
                    world_timeouts _ timeout_error timeout_error timeout_error
                    eq_refl eq_refl eq_refl eq_refl eq_refl eq_refl eq_refl)).
Defined.

Lemma ready_iff_configured_witness :
  @ready stub deployed idle
    = (Return [("status", VStr "ready");
               ("endpoint", VStr "shoppers-xgboost-endpoint")], idle)
  /\ http_status (fst (@ready stub no_client idle)) = 503
  /\ http_status (fst (@ready stub empty_name idle)) = 503
  /\ http_status (fst (@ready stub unset_name idle)) = 503.
Proof.
  split; [|split; [|split]].
  - apply (proj1 (@ready_iff_configured stub deployed idle)).
    + discriminate.
    + reflexivity.
  - apply (proj1 (proj2 (@ready_iff_configured stub no_client idle))).
    left. reflexivity.
  - apply (proj1 (proj2 (@ready_iff_configured stub empty_name idle))).
    right. reflexivity.
  - apply (proj1 (proj2 (@ready_iff_configured stub unset_name idle))).
    right. reflexivity.
Defined.

Lemma unparsable_body_is_internal_error_witness :
  @body_float stub (body_of "abc")
    = inl "could not convert string to float: 'abc'"
  /\ fst (@predict stub deployed request17 world_garbled)
     = Raise (PyException "ValueError"
                "could not convert string to float: 'abc'")
  /\ http_status (fst (@predict stub deployed request17 world_garbled)) = 500.
Proof.
  assert (Hbody : @body_float stub (body_of "abc")
                  = inl "could not convert string to float: 'abc'")
    by (vm_compute; reflexivity).
  split; [exact Hbody|].
  destruct (proj2 (@unparsable_body_is_internal_error stub deployed request17
                     world_garbled (body_of "abc")
                     (snd (@call_endpoint_with_retry stub deployed
                             (features request17) 3 world_garbled))
                     eq_refl ltac:(vm_compute; reflexivity))
              _ Hbody) as [_ [Hstatus _]].
  split; [vm_compute; reflexivity | exact Hstatus].
Defined.

Lemma final_attempt_decides_witness :
  (network_calls
     (log (snd (@call_endpoint_with_retry stub deployed (features request17)
                  3 world_slow))) <= 3)%nat
  /\ @call_endpoint_with_retry stub deployed (features request17) 0 world_slow
     = (Raise exhausted, world_slow)
  /\ @loop_from stub deployed csv17 3 2 world_slow_last
     = (Return (body_of "0.85"), after_response deployed csv17 world_slow_last).
Proof.
  pose proof (@final_attempt_decides stub deployed (features request17) 3
                world_slow) as [_ [_ [Hcalls Hlast]]].
  pose proof (@final_attempt_decides stub deployed (features request17) 0
                world_slow) as [_ [Hzero _]].
  split; [|split].
  - exact (Hcalls ltac:(lia)).
  - exact (Hzero ltac:(lia)).
  - exact (Hlast ltac:(lia) csv17 world_slow_last).
Defined.

(** ** Further properties of the code *)

Section Further.

Context {builtins : Builtins}.
Variable cfg : Config.

Lemma pauses_app l l' : pauses (l ++ l') = (pauses l ++ pauses l')%list.
Proof.
  induction l as [|[ep ct b|s] l IH]; cbn; [reflexivity|exact IH|].
  rewrite IH. reflexivity.
Qed.

Lemma network_calls_app (l l' : list event) :
  network_calls (l ++ l') = (network_calls l + network_calls l')%nat.
Proof. unfold network_calls. rewrite filter_app, length_app. reflexivity. Qed.

Ltac find_effects :=
  first [ exists []; split; [symmetry; apply app_nil_r|]
        | eexists; split; [cbn; rewrite <- ?app_assoc; reflexivity|] ].

Lemma own_call csv : own_event cfg csv (Invoke (ENDPOINT_NAME cfg) "text/csv" csv).
Proof. left. reflexivity. Qed.

Lemma own_sleep csv s : own_event cfg csv (Sleep s).
Proof. right. exists s. reflexivity. Qed.

Ltac own_events :=
  cbn [app]; repeat (apply Forall_cons; [first [apply own_call | apply own_sleep]|]);
  apply Forall_nil.

Ltac rest_effects :=
  split; [own_events|];
  split; [cbn; lia|];
  split; [intros i; reflexivity|].

Ltac last_effects :=
  cbn [pauses app];
  first [ split; [lia | first [left; reflexivity | right; reflexivity]]
        | split; [reflexivity | split; reflexivity]
        | split; [reflexivity
                 | eexists _, _; split;
                   [reflexivity | first [left; reflexivity | right; reflexivity]]] ].

Lemma attempt_body_effects csv n k w :
  exists l,
    log (snd (attempt_body cfg csv n k w)) = (log w ++ l)%list
    /\ Forall (own_event cfg csv) l
    /\ (network_calls l <= 1)%nat
    /\ (forall i, remote (snd (attempt_body cfg csv n k w)) i
                  = remote w (network_calls l + i)%nat)
    /\ match fst (attempt_body cfg csv n k w) with
       | Return Continue =>
           k <> n - 1 /\ (pauses l = [1] \/ pauses l = [2 ^ k])
       | Return (Returned r) =>
           remote w 0%nat = Responds r /\ network_calls l = 1%nat
           /\ pauses l = []
       | Raise e =>
           pauses l = []
           /\ exists s d, e = HTTPException s (DetailStr d)
                          /\ (s = 500 \/ s = 503)
       end.
Proof.
  unfold attempt_body, invoke_endpoint. cbn.
  destruct (runtime cfg) as [c|]; cbn.
  - destruct (remote w 0%nat) as [r|e] eqn:Hr; cbn.
    + destruct (float_gt _ _); cbn;
        destruct (Z.ltb_spec k (n - 1)); cbn; find_effects; rest_effects;
        last_effects.
    + destruct e as [status d|code msg|cls text];
        try destruct (code =? "ModelError")%string; cbn;
        try destruct (Z.ltb_spec k (n - 1)); cbn;
        try destruct (Z.eqb_spec k (n - 1)); cbn; find_effects; rest_effects;
        last_effects.
  - destruct (Z.eqb_spec k (n - 1)); cbn; find_effects; rest_effects;
      last_effects.
Qed.

Lemma pause_time_app l l' : pause_time (l ++ l') = pause_time l + pause_time l'.
Proof.
  unfold pause_time. rewrite pauses_app.
  induction (pauses l) as [|s ps IH]; cbn [app fold_right]; [reflexivity|].
  rewrite IH. lia.
Qed.

Lemma loop_from_effects csv n (m : nat) :
  forall k w,
    0 <= k < n -> Z.to_nat (n - 1 - k) = m ->
    exists l,
      log (snd (loop_from cfg csv n k w)) = (log w ++ l)%list
      /\ Forall (own_event cfg csv) l
      /\ (network_calls l <= S m)%nat
      /\ (List.length (pauses l) <= m)%nat
      /\ Forall (backoff_pause n k) (pauses l)
      /\ pause_time l <= 2 ^ (n - 1) - 2 ^ k
      /\ match fst (loop_from cfg csv n k w) with
         | Return r =>
             exists j, remote w j = Responds r /\ network_calls l = S j
         | Raise e =>
             exists s d, e = HTTPException s (DetailStr d)
                         /\ (s = 500 \/ s = 503)
         end.
Proof.
  induction m as [|m IH]; intros k w Hk Hm;
    rewrite (loop_from_step cfg csv n k w Hk);
    destruct (attempt_body_effects csv n k w)
      as (l1 & Hlog & Hown & Hcalls & Hremote & Hres);
    destruct (attempt_body cfg csv n k w) as [[[|r]|e] w1];
    cbn [fst snd] in *.
  - destruct Hres as [Hne _]. lia.
  - destruct Hres as (Hr & Hone & Hp).
    exists l1. unfold pause_time. rewrite Hp. cbn [List.length fold_right].
    repeat split; try assumption; try lia; try constructor.
    + replace k with (n - 1) by lia. lia.
    + exists 0%nat. split; assumption.
  - destruct Hres as (Hp & Hhttp).
    exists l1. unfold pause_time. rewrite Hp. cbn [List.length fold_right].
    repeat split; try assumption; try lia; try constructor.
    replace k with (n - 1) by lia. lia.
  - destruct Hres as (Hne & Hp).
    destruct (IH (k + 1) w1) as (l2 & Hlog2 & Hown2 & Hcalls2 & Hlen2 & Hb2 & Ht2 & Hres2);
      [lia | lia |].
    exists (l1 ++ l2)%list.
    assert (Hpow : 2 ^ (k + 1) = 2 * 2 ^ k) by (apply Z.pow_succ_r; lia).
    assert (Hpos : 1 <= 2 ^ k) by (pose proof (Z.pow_pos_nonneg 2 k); lia).
    assert (Hone : List.length (pauses l1) = 1%nat
                   /\ pause_time l1 <= 2 ^ k
                   /\ Forall (backoff_pause n k) (pauses l1)).
    { unfold pause_time.
      destruct Hp as [Hp|Hp]; rewrite Hp; cbn [List.length fold_right];
        (split; [reflexivity | split; [lia|]]);
        apply Forall_cons; try apply Forall_nil.
      - left. reflexivity.
      - right. exists k. split; [lia | reflexivity]. }
    destruct Hone as (Hlen1 & Ht1 & Hb1).
    rewrite Hlog2, Hlog, <- app_assoc.
    rewrite network_calls_app, pauses_app, length_app, pause_time_app.
    repeat split; try lia.
    + apply Forall_app. split; assumption.
    + apply Forall_app. split; [assumption|].
      apply (Forall_impl _ (P := backoff_pause n (k + 1))); [|assumption].
      intros s [Hs|(j & Hj & Hs)]; [left; assumption | right; exists j; split; [lia|assumption]].
    + destruct (fst (loop_from cfg csv n (k + 1) w1)) as [r|e].
      * destruct Hres2 as (j & Hj & Hcj).
        exists (network_calls l1 + j)%nat. split; [rewrite <- Hremote; exact Hj | lia].
      * exact Hres2.
  - destruct Hres as (Hr & Hone & Hp).
    exists l1. unfold pause_time. rewrite Hp. cbn [List.length fold_right].
    pose proof (Z.pow_le_mono_r 2 k (n - 1)).
    repeat split; try assumption; try lia; try constructor.
    exists 0%nat. split; assumption.
  - destruct Hres as (Hp & Hhttp).
    exists l1. unfold pause_time. rewrite Hp. cbn [List.length fold_right].
    pose proof (Z.pow_le_mono_r 2 k (n - 1)).
    repeat split; try assumption; try lia; try constructor.
Qed.

Lemma call_effects features n w :
  exists l,
    log (snd (call_endpoint_with_retry cfg features n w)) = (log w ++ l)%list
    /\ Forall (own_event cfg (csv_of features)) l
    /\ (network_calls l <= Z.to_nat n)%nat
    /\ (List.length (pauses l) <= Z.to_nat (n - 1))%nat
    /\ Forall (backoff_pause n 0) (pauses l)
    /\ (1 <= n -> pause_time l <= 2 ^ (n - 1) - 1)
    /\ match fst (call_endpoint_with_retry cfg features n w) with
       | Return r =>
           exists j, remote w j = Responds r /\ network_calls l = S j
       | Raise e =>
           exists s d, e = HTTPException s (DetailStr d)
                       /\ (s = 500 \/ s = 503)
       end.
Proof.
  destruct (Z.le_gt_cases n 0) as [Hn|Hn].
  - unfold call_endpoint_with_retry. rewrite (range_nonpos n Hn).
    exists []. cbn. rewrite app_nil_r.
    split; [reflexivity|]. split; [constructor|]. split; [lia|].
    split; [lia|]. split; [constructor|]. split; [lia|].
    eexists _, _. split; [reflexivity | right; reflexivity].
  - rewrite call_endpoint_with_retry_loop_from.
    destruct (loop_from_effects (csv_of features) n (Z.to_nat (n - 1 - 0)) 0 w)
      as (l & Hlog & Hown & Hcalls & Hlen & Hb & Ht & Hres); [lia | reflexivity |].
    exists l. change (2 ^ 0) with 1 in Ht.
    repeat split; try assumption; try lia.
Qed.

Lemma skipn_range_all (n : Z) : skipn (Z.to_nat n) (range n) = [].
Proof.
  apply skipn_all2. unfold range. rewrite length_map, length_seq. lia.
Qed.

Lemma loop_from_no_client csv n (m : nat) :
  runtime cfg = None ->
  forall k w,
    0 <= k < n -> Z.to_nat (n - 1 - k) = m ->
    fst (loop_from cfg csv n k w) = Raise (raised_for no_attribute)
    /\ log (snd (loop_from cfg csv n k w))
       = (log w ++ map (fun j => Sleep (2 ^ j))
                     (skipn (Z.to_nat k) (range (n - 1))))%list.
Proof.
  intros Hc. induction m as [|m IH]; intros k w Hk Hm;
    rewrite (loop_from_step cfg csv n k w Hk);
    rewrite (attempt_body_no_client cfg csv n k w Hc);
    destruct (Z.eqb_spec k (n - 1)) as [E|E]; try lia.
  - subst k. rewrite skipn_range_all. cbn. rewrite app_nil_r. split; reflexivity.
  - destruct (IH (k + 1) (slept (2 ^ k) (ticked w))) as [H1 H2]; [lia | lia |].
    rewrite H1, H2. split; [reflexivity|].
    rewrite (skipn_range (n - 1) k) by lia.
    cbn. rewrite <- app_assoc. reflexivity.
Qed.

Lemma count_char_app c s s' :
  count_char c (s ++ s') = (count_char c s + count_char c s')%nat.
Proof.
  induction s as [|ch s IH]; cbn; [reflexivity|]. rewrite IH. lia.
Qed.

Ltac order_cases :=
  repeat match goal with
    | |- context [Z.compare ?a ?b] =>
        destruct (Z.compare_spec a b); try lia; subst
    | |- context [Pos.compare_cont Eq ?a ?b] =>
        change (Pos.compare_cont Eq a b) with (Pos.compare a b);
        destruct (Pos.compare_spec a b); try lia; subst
    end;
  cbn [CompOpp]; try lia; try congruence.

Lemma float_gt_le_trans (x y z : float) :
  float_gt y x = true -> float_le y z = true -> float_gt z x = true.
Proof.
  unfold float_gt, float_le, SFltb, SFleb.
  destruct x as [[]|[]| |[] mx ex], y as [[]|[]| |[] my ey],
    z as [[]|[]| |[] mz ez];
    cbv beta iota delta [SFcompare]; try congruence; order_cases.
Qed.

Lemma predict_effects request w :
  List.length (features request) = 17%nat ->
  snd (predict cfg request w)
  = snd (call_endpoint_with_retry cfg (features request) 3 w).
Proof.
  intros Hlen.
  destruct (call_endpoint_with_retry cfg (features request) 3 w)
    as [[r|e] w'] eqn:Hcall.
  - rewrite (predict_retry_returns cfg request w r w' Hlen Hcall). reflexivity.
  - rewrite (predict_retry_raises cfg request w e w' Hlen Hcall). reflexivity.
Qed.

Lemma predict_rejects request w :
  List.length (features request) <> 17%nat ->
  predict cfg request w =
    (Raise (HTTPException 400
              (DetailStr ("Expected 17 features, got "
                          ++ str_int (Z.of_nat (List.length (features request)))))),
     w).
Proof.
  intros Hlen. unfold predict.
  destruct (Z.eqb_spec (Z.of_nat (List.length (features request))) 17) as [E|E].
  - exfalso. apply Hlen. lia.
  - reflexivity.
Qed.

Lemma retry_effects_raise features n w e w' :
  call_endpoint_with_retry cfg features n w = (Raise e, w') ->
  exists s d, e = HTTPException s (DetailStr d) /\ (s = 500 \/ s = 503).
Proof.
  intros Hcall.
  destruct (call_effects features n w) as (l & _ & _ & _ & _ & _ & _ & Hres).
  rewrite Hcall in Hres. exact Hres.
Qed.

Lemma retry_effects_return features n w r w' :
  call_endpoint_with_retry cfg features n w = (Return r, w') ->
  exists j,
    (j < Z.to_nat n)%nat
    /\ remote w j = Responds r
    /\ network_calls (log w') = (network_calls (log w) + S j)%nat.
Proof.
  intros Hcall.
  destruct (call_effects features n w)
    as (l & Hlog & _ & Hcalls & _ & _ & _ & Hres).
  rewrite Hcall in Hlog, Hres. cbn [fst snd] in *.
  destruct Hres as (j & Hj & Hcj).
  exists j. rewrite Hlog, network_calls_app. repeat split; try assumption; lia.
Qed.

Lemma retry_needs_client features n w r w' :
  call_endpoint_with_retry cfg features n w = (Return r, w') ->
  runtime cfg <> None.
Proof.
  intros Hcall Hc.
  destruct (Z.le_gt_cases n 0) as [Hn|Hn].
  - unfold call_endpoint_with_retry in Hcall.
    rewrite (range_nonpos n Hn) in Hcall. discriminate Hcall.
  - rewrite call_endpoint_with_retry_loop_from in Hcall.
    destruct (loop_from_no_client (csv_of features) n
                (Z.to_nat (n - 1 - 0)) Hc 0 w) as [H _]; [lia | reflexivity |].
    rewrite Hcall in H. discriminate H.
Qed.

Lemma ready_world w : snd (ready cfg w) = w.
Proof.
  unfold ready. cbn.
  destruct (runtime cfg), (truthy (ENDPOINT_NAME cfg)); reflexivity.
Qed.

(** With a client handle, one pass through the loop body makes the call
    and, when the loop goes on, one pause after it. *)
Lemma attempt_body_shape csv n k w c :
  runtime cfg = Some c ->
  match fst (attempt_body cfg csv n k w) with
  | Return Continue =>
      exists s, log (snd (attempt_body cfg csv n k w))
                = (log w ++ [the_call cfg csv; Sleep s])%list
  | _ => log (snd (attempt_body cfg csv n k w))
         = (log w ++ [the_call cfg csv])%list
  end.
Proof.
  intros Hc.
  destruct (remote w 0%nat) as [r|e] eqn:Hr.
  - rewrite (attempt_body_responds cfg csv n k w c r Hc Hr).
    destruct (float_gt _ _ && _); cbn [fst snd]; [|reflexivity].
    exists 1. cbn. rewrite <- app_assoc. reflexivity.
  - destruct e as [status d|code msg|cls text].
    + rewrite (attempt_body_other_error cfg csv n k w c _ Hc Hr eq_refl).
      destruct (k =? n - 1); cbn [fst snd]; [reflexivity|].
      exists (2 ^ k). cbn. rewrite <- app_assoc. reflexivity.
    + rewrite (attempt_body_client_error cfg csv n k w c code msg Hc Hr).
      destruct (_ && _); cbn [fst snd]; [|reflexivity].
      exists (2 ^ k). cbn. rewrite <- app_assoc. reflexivity.
    + rewrite (attempt_body_other_error cfg csv n k w c _ Hc Hr eq_refl).
      destruct (k =? n - 1); cbn [fst snd]; [reflexivity|].
      exists (2 ^ k). cbn. rewrite <- app_assoc. reflexivity.
Qed.

Lemma loop_from_shape csv n c (m : nat) :
  runtime cfg = Some c ->
  forall k w,
    0 <= k < n -> Z.to_nat (n - 1 - k) = m ->
    exists ps,
      (List.length ps <= m)%nat
      /\ log (snd (loop_from cfg csv n k w))
         = (log w ++ flat_map (fun s => [the_call cfg csv; Sleep s]) ps
                  ++ [the_call cfg csv])%list.
Proof.
  intros Hc. induction m as [|m IH]; intros k w Hk Hm;
    rewrite (loop_from_step cfg csv n k w Hk);
    pose proof (attempt_body_shape csv n k w c Hc) as Hshape;
    pose proof (attempt_body_cases cfg csv n k w) as Hcases;
    destruct (attempt_body cfg csv n k w) as [[[|r]|e] w1];
    cbn [fst snd] in *;
    try (exists []; split; [cbn; lia | exact Hshape]).
  - destruct Hcases as [Hne _]. lia.
  - destruct Hshape as [s Hs].
    destruct (IH (k + 1) w1) as (ps & Hlen & Hlog); [lia | lia |].
    exists (s :: ps). split; [cbn; lia|].
    rewrite Hlog, Hs. cbn [flat_map app]. rewrite <- app_assoc. reflexivity.
Qed.

(** A run of retryable failures: the loop moves on by as many attempts,
    with the pause [2 ** attempt] after each call. *)
Lemma loop_from_after_failures csv n c (j : nat) :
  runtime cfg = Some c ->
  forall (k : nat) w,
    Z.of_nat (k + j) < n ->
    (forall i, (i < j)%nat ->
               exists e, remote w i = Fails e /\ retryable e = true) ->
    exists w',
      loop_from cfg csv n (Z.of_nat k) w
        = loop_from cfg csv n (Z.of_nat (k + j)) w'
      /\ log w' = (log w ++ flat_map (fun a => [the_call cfg csv; Sleep (2 ^ a)])
                              (map Z.of_nat (seq k j)))%list
      /\ (forall i, remote w' i = remote w (j + i)%nat)
      /\ (forall i, clock w' i = clock w (j + i)%nat).
Proof.
  intros Hc. induction j as [|j IH]; intros k w Hk Hfail.
  - exists w. rewrite Nat.add_0_r. cbn. rewrite app_nil_r. repeat split.
  - destruct (Hfail 0%nat) as (e & He & Hre); [lia|].
    destruct (IH (S k) (slept (2 ^ Z.of_nat k) (after_failure cfg csv w)))
      as (w' & Hloop & Hlog & Hrem & Hclk).
    + lia.
    + intros i Hi. exact (Hfail (S i) ltac:(lia)).
    + exists w'. split; [|split; [|split]].
      * rewrite (loop_from_step cfg csv n (Z.of_nat k) w) by lia.
        rewrite (attempt_body_retryable cfg csv n (Z.of_nat k) w c e Hc He Hre)
          by lia.
        replace (Z.of_nat k + 1) with (Z.of_nat (S k)) by lia.
        rewrite Hloop. replace (S k + j)%nat with (k + S j)%nat by lia.
        reflexivity.
      * rewrite Hlog. cbn. rewrite <- !app_assoc. reflexivity.
      * intros i. rewrite Hrem. reflexivity.
      * intros i. rewrite Hclk. reflexivity.
Qed.

(** A run of slow responses: the loop moves on by as many attempts, with a
    pause of 1 after each call. *)
Lemma loop_from_after_slow csv n c (j : nat) :
  runtime cfg = Some c ->
  forall (k : nat) w,
    Z.of_nat (k + j) < n ->
    (forall i, (i < j)%nat ->
               (exists r, remote w i = Responds r)
               /\ float_gt (float_sub (clock w (2 * i + 1)%nat)
                                      (clock w (2 * i)%nat)) lit_5_0 = true) ->
    exists w',
      loop_from cfg csv n (Z.of_nat k) w
        = loop_from cfg csv n (Z.of_nat (k + j)) w'
      /\ log w' = (log w ++ flat_map (fun _ => [the_call cfg csv; Sleep 1])
                              (seq k j))%list
      /\ (forall i, remote w' i = remote w (j + i)%nat).
Proof.
  intros Hc. induction j as [|j IH]; intros k w Hk Hslow.
  - exists w. rewrite Nat.add_0_r. cbn. rewrite app_nil_r. repeat split.
  - destruct (Hslow 0%nat) as ((r & Hr) & Hel); [lia|].
    destruct (IH (S k) (slept 1 (after_response cfg csv w)))
      as (w' & Hloop & Hlog & Hrem).
    + lia.
    + intros i Hi. destruct (Hslow (S i) ltac:(lia)) as (Hresp & Hsl).
      split; [exact Hresp|].
      replace (2 * S i + 1)%nat with (S (S (2 * i + 1))) in Hsl by lia.
      replace (2 * S i)%nat with (S (S (2 * i))) in Hsl by lia.
      exact Hsl.
    + exists w'. split; [|split].
      * rewrite (loop_from_step cfg csv n (Z.of_nat k) w) by lia.
        rewrite (attempt_body_responds cfg csv n (Z.of_nat k) w c r Hc Hr).
        change (elapsed_in w)
          with (float_sub (clock w (2 * 0 + 1)%nat) (clock w (2 * 0)%nat)).
        rewrite Hel.
        destruct (Z.ltb_spec (Z.of_nat k) (n - 1)); [|lia].
        cbn [andb].
        replace (Z.of_nat k + 1) with (Z.of_nat (S k)) by lia.
        rewrite Hloop. replace (S k + j)%nat with (k + S j)%nat by lia.
        reflexivity.
      * rewrite Hlog. cbn. rewrite <- !app_assoc. reflexivity.
      * intros i. rewrite Hrem. reflexivity.
Qed.

Lemma range_of_nat (j : nat) : range (Z.of_nat j) = map Z.of_nat (seq 0 j).
Proof. unfold range. rewrite Nat2Z.id. reflexivity. Qed.

Lemma pause_time_backoff csv (j : nat) :
  pause_time (flat_map (fun a => [the_call cfg csv; Sleep (2 ^ a)])
                (map Z.of_nat (seq 0 j)))
  = 2 ^ Z.of_nat j - 1.
Proof.
  induction j as [|j IH]; [reflexivity|].
  rewrite seq_S, map_app, flat_map_app, pause_time_app, IH.
  cbn [map flat_map app Nat.add]. unfold pause_time, the_call.
  cbn [pauses fold_right].
  rewrite Nat2Z.inj_succ, Z.pow_succ_r by lia. lia.
Qed.


(** X1.  In [call_endpoint_with_retry], an attempt whose call returns with
    [elapsed > 5.0] false (a fast response, or a NaN difference) returns the
    response at once, on any attempt, and adds no pause. *)
Theorem fast_response_returned_at_once csv max_retries attempt w c r :
  runtime cfg = Some c ->
  0 <= attempt < max_retries ->
  remote w 0%nat = Responds r ->
  float_gt (elapsed_in w) lit_5_0 = false ->
  loop_from cfg csv max_retries attempt w = (Return r, after_response cfg csv w)
  /\ pauses (log (after_response cfg csv w)) = pauses (log w).
Proof.
  intros Hc Hk Hr Hfast. split.
  - rewrite (loop_from_step cfg csv max_retries attempt w Hk).
    rewrite (attempt_body_responds cfg csv max_retries attempt w c r Hc Hr).
    rewrite Hfast. reflexivity.
  - cbn. rewrite pauses_app. cbn. apply app_nil_r.
Qed.

(** X2.  In [call_endpoint_with_retry], an attempt whose call raises
    [ClientError] with code "ModelError": while attempts remain
    [time.sleep(2 ** attempt)] runs and the loop goes on; on the final
    attempt the function raises [HTTPException] 503 with detail
    "Endpoint error: ModelError". *)
Theorem model_error_policy csv max_retries attempt w c msg :
  runtime cfg = Some c ->
  0 <= attempt < max_retries ->
  remote w 0%nat = Fails (ClientError "ModelError" msg) ->
  loop_from cfg csv max_retries attempt w =
    if attempt <? max_retries - 1
    then loop_from cfg csv max_retries (attempt + 1)
           (slept (2 ^ attempt) (after_failure cfg csv w))
    else (Raise (HTTPException 503 (DetailStr "Endpoint error: ModelError")),
          after_failure cfg csv w).
Proof.
  intros Hc Hk Hr.
  rewrite (loop_from_step cfg csv max_retries attempt w Hk).
  rewrite (attempt_body_client_error cfg csv max_retries attempt w c _ msg Hc Hr).
  change ("ModelError" =? "ModelError")%string with true. cbn [andb].
  destruct (attempt <? max_retries - 1); reflexivity.
Qed.


(** X4.  For [max_retries >= 1], a run of [call_endpoint_with_retry] only
    adds to the trace, makes at most [max_retries - 1] pauses, each of 1 or
    of [2 ** j] for an attempt [j] that is not the last, and pauses for at
    most [2 ** (max_retries - 1) - 1] in total. *)
Theorem backoff_is_bounded features max_retries w :
  1 <= max_retries ->
  exists l,
    log (snd (call_endpoint_with_retry cfg features max_retries w))
      = (log w ++ l)%list
    /\ (List.length (pauses l) <= Z.to_nat (max_retries - 1))%nat
    /\ Forall (fun s => s = 1 \/ exists j, 0 <= j < max_retries - 1 /\ s = 2 ^ j)
         (pauses l)
    /\ pause_time l <= 2 ^ (max_retries - 1) - 1.
Proof.
  intros Hn.
  destruct (call_effects features max_retries w)
    as (l & Hlog & _ & _ & Hlen & Hb & Ht & _).
  exists l. repeat split; try assumption. exact (Ht Hn).
Qed.

(** X5.  A response that [call_endpoint_with_retry] returns is the one of
    the last call it made: it is the response of call number [j + 1] for
    some [j < max_retries], and the run made exactly [j + 1] calls. *)
Theorem returned_response_is_last_call features max_retries w r w' :
  call_endpoint_with_retry cfg features max_retries w = (Return r, w') ->
  exists j,
    (j < Z.to_nat max_retries)%nat
    /\ remote w j = Responds r
    /\ network_calls (log w') = (network_calls (log w) + S j)%nat.
Proof.
  exact (retry_effects_return features max_retries w r w').
Qed.

(** X6.  When [runtime] is [None] and [max_retries >= 1],
    [call_endpoint_with_retry] makes no call at all: it pauses
    [2 ** 0, ..., 2 ** (max_retries - 2)] and raises [HTTPException] 500
    with the text of the attribute error. *)
Theorem no_client_no_call features max_retries w :
  runtime cfg = None ->
  1 <= max_retries ->
  fst (call_endpoint_with_retry cfg features max_retries w)
    = Raise (HTTPException 500
               (DetailStr ("Unexpected error: "
                           ++ "'NoneType' object has no attribute 'invoke_endpoint'")))
  /\ log (snd (call_endpoint_with_retry cfg features max_retries w))
     = (log w ++ map (fun j => Sleep (2 ^ j)) (range (max_retries - 1)))%list.
Proof.
  intros Hc Hn. rewrite call_endpoint_with_retry_loop_from.
  exact (loop_from_no_client (csv_of features) max_retries
           (Z.to_nat (max_retries - 1 - 0)) Hc 0 w ltac:(lia) eq_refl).
Qed.

(** X11.  [predict] is answered with 200, 400, 500 or 503, and with 400
    exactly when the number of features is not 17. *)
Theorem predict_status_codes request w :
  let status := http_status (fst (predict cfg request w)) in
  (status = 200 \/ status = 400 \/ status = 500 \/ status = 503)
  /\ (status = 400 <-> List.length (features request) <> 17%nat).
Proof.
  cbv zeta.
  destruct (Nat.eq_dec (List.length (features request)) 17) as [Hlen|Hlen].
  - assert (H : http_status (fst (predict cfg request w)) = 200
                \/ http_status (fst (predict cfg request w)) = 500
                \/ http_status (fst (predict cfg request w)) = 503).
    { destruct (call_endpoint_with_retry cfg (features request) 3 w)
        as [[r|e] w'] eqn:Hcall.
      - rewrite (predict_retry_returns cfg request w r w' Hlen Hcall).
        destruct (body_float r); cbn; auto.
      - rewrite (predict_retry_raises cfg request w e w' Hlen Hcall).
        destruct (retry_effects_raise _ _ _ _ _ Hcall) as (s & d & -> & [->| ->]);
          cbn; auto. }
    split; [intuition|]. split; [intros E; rewrite E in H; intuition discriminate | contradiction].
  - rewrite (predict_rejects request w Hlen). cbn.
    split; [auto|]. split; [intros _; exact Hlen | reflexivity].
Qed.


(** X7.  With a client handle and [max_retries >= 1], the effects of
    [call_endpoint_with_retry] are calls and pauses in alternation, first
    and last a call: every call is the same call (endpoint, content type and
    payload), and exactly one pause separates two calls. *)
Theorem calls_and_pauses_alternate features max_retries w c :
  runtime cfg = Some c ->
  1 <= max_retries ->
  exists ps,
    (List.length ps <= Z.to_nat (max_retries - 1))%nat
    /\ log (snd (call_endpoint_with_retry cfg features max_retries w))
       = (log w
          ++ flat_map (fun s => [the_call cfg (csv_of features); Sleep s]) ps
          ++ [the_call cfg (csv_of features)])%list.
Proof.
  intros Hc Hn. rewrite call_endpoint_with_retry_loop_from.
  destruct (loop_from_shape (csv_of features) max_retries c
              (Z.to_nat (max_retries - 1 - 0)) Hc 0 w) as (ps & Hlen & Hlog);
    [lia | reflexivity |].
  exists ps. split; [lia | exact Hlog].
Qed.

(** X12.  One [predict] makes at most 3 calls, each with the payload built
    from its features, and at most 2 pauses, of at most 3 in total. *)
Theorem predict_cost_bounded request w :
  exists l,
    log (snd (predict cfg request w)) = (log w ++ l)%list
    /\ Forall (fun ev => ev = the_call cfg (csv_of (features request))
                         \/ exists seconds, ev = Sleep seconds) l
    /\ (network_calls l <= 3)%nat
    /\ (List.length (pauses l) <= 2)%nat
    /\ pause_time l <= 3.
Proof.
  destruct (Nat.eq_dec (List.length (features request)) 17) as [Hlen|Hlen].
  - rewrite (predict_effects request w Hlen).
    destruct (call_effects (features request) 3 w)
      as (l & Hlog & Hown & Hcalls & Hp & _ & Ht & _).
    exists l. repeat split; try assumption. exact (Ht ltac:(lia)).
  - rewrite (predict_rejects request w Hlen).
    exists []. cbn. rewrite app_nil_r.
    split; [reflexivity|]. split; [constructor|]. lia.
Qed.

(** X13.  When [predict] returns a value, the request had 17 features, the
    client handle is not [None], and the prediction is the float read from
    the body of the last call made, with the label of line 96. *)
Theorem prediction_comes_from_last_call request w resp w' :
  predict cfg request w = (Return resp, w') ->
  List.length (features request) = 17%nat
  /\ runtime cfg <> None
  /\ exists j r,
       (j < 3)%nat
       /\ remote w j = Responds r
       /\ body_float r = inr (prediction resp)
       /\ confidence resp = confidence_level (prediction resp)
       /\ network_calls (log w') = (network_calls (log w) + S j)%nat.
Proof.
  intros Hp.
  destruct (Nat.eq_dec (List.length (features request)) 17) as [Hlen|Hlen];
    [|rewrite (predict_rejects request w Hlen) in Hp; discriminate Hp].
  split; [exact Hlen|].
  destruct (call_endpoint_with_retry cfg (features request) 3 w)
    as [[r|e] w1] eqn:Hcall;
    [|rewrite (predict_retry_raises cfg request w e w1 Hlen Hcall) in Hp;
      discriminate Hp].
  split; [exact (retry_needs_client _ _ _ _ _ Hcall)|].
  rewrite (predict_retry_returns cfg request w r w1 Hlen Hcall) in Hp.
  destruct (retry_effects_return _ _ _ _ _ Hcall) as (j & Hj & Hr & Hcalls).
  destruct (body_float r) as [text|p] eqn:Hb; [discriminate Hp|].
  injection Hp as <- <-.
  exists j, r. cbn [prediction confidence].
  repeat split; assumption.
Qed.

(** X14.  The label of line 96, for every float: "high" exactly when
    [p > 0.7], "medium" exactly when [p > 0.3] and not [p > 0.7], "low"
    exactly when not [p > 0.3] (so NaN is "low"). *)
Theorem confidence_level_exact (p : float) :
  (confidence_level p = "high" <-> float_gt p lit_0_7 = true)
  /\ (confidence_level p = "medium"
      <-> float_gt p lit_0_3 = true /\ float_gt p lit_0_7 = false)
  /\ (confidence_level p = "low" <-> float_gt p lit_0_3 = false).
Proof.
  assert (Hco : float_gt p lit_0_7 = true -> float_gt p lit_0_3 = true).
  { intros H. apply (float_gt_le_trans lit_0_3 lit_0_7 p).
    - vm_compute. reflexivity.
    - unfold float_gt, float_le, SFltb, SFleb in *.
      destruct (SFcompare lit_0_7 p) as [[ | | ]|]; congruence. }
  unfold confidence_level.
  destruct (float_gt p lit_0_7) eqn:H7.
  - rewrite (Hco eq_refl).
    repeat split; try discriminate; try reflexivity; intros; intuition discriminate.
  - destruct (float_gt p lit_0_3) eqn:H3;
      repeat split; try discriminate; try reflexivity; intros; intuition discriminate.
Qed.

(** X15.  The label of line 96 is monotone: when [p <= q], the label of [q]
    is not lower than the label of [p]. *)
Theorem confidence_level_monotone (p q : float) :
  float_le p q = true ->
  label_rank (confidence_level p) <= label_rank (confidence_level q).
Proof.
  intros Hle. unfold confidence_level.
  destruct (float_gt p lit_0_7) eqn:Hp7.
  - rewrite (float_gt_le_trans lit_0_7 p q Hp7 Hle). reflexivity.
  - destruct (float_gt p lit_0_3) eqn:Hp3.
    + rewrite (float_gt_le_trans lit_0_3 p q Hp3 Hle).
      destruct (float_gt q lit_0_7); vm_compute; discriminate.
    + destruct (float_gt q lit_0_7); [vm_compute; discriminate|].
      destruct (float_gt q lit_0_3); vm_compute; discriminate.
Qed.

(** X16.  The payload of line 41 has one field per feature: when [str] of
    a float never contains a comma, the payload of a non-empty feature list
    has one comma less than there are features. *)
Theorem csv_field_count (features : list float) :
  (forall x, count_char "," (str_float x) = 0%nat) ->
  features <> [] ->
  S (count_char "," (csv_of features)) = List.length features.
Proof.
  intros Hclean Hne. unfold csv_of.
  induction features as [|x [|y rest] IH]; [contradiction | |].
  - cbn. rewrite Hclean. reflexivity.
  - change (String.concat "," (map str_float (x :: y :: rest)))
      with (str_float x ++ "," ++ String.concat "," (map str_float (y :: rest))).
    rewrite !count_char_app, Hclean.
    change (count_char "," ",") with 1%nat.
    cbn [List.length Nat.add]. f_equal. apply IH. discriminate.
Qed.

(** X17.  [health] is answered with 200 under every configuration, and
    neither [health] nor [ready] has an effect: a [predict] after a probe
    does what it would have done without it. *)
Theorem probes_leave_the_world_alone request w :
  http_status (fst (health w)) = 200
  /\ predict cfg request (snd (health w)) = predict cfg request w
  /\ predict cfg request (snd (ready cfg w)) = predict cfg request w.
Proof.
  split; [reflexivity|]. split; [reflexivity|].
  rewrite ready_world. reflexivity.
Qed.


(** X8.  If the first [j] calls raise retryable errors and call [j + 1]
    responds, fast or on the final attempt, [call_endpoint_with_retry]
    returns that response after the pauses [2 ** 0, ..., 2 ** (j - 1)], one
    after each failed call. *)
Theorem recovery_after_transient_failures features max_retries w c (j : nat) r :
  runtime cfg = Some c ->
  Z.of_nat j < max_retries ->
  (forall i, (i < j)%nat ->
             exists e, remote w i = Fails e /\ retryable e = true) ->
  remote w j = Responds r ->
  float_gt (float_sub (clock w (S j)) (clock w j)) lit_5_0 = false
  \/ Z.of_nat j = max_retries - 1 ->
  fst (call_endpoint_with_retry cfg features max_retries w) = Return r
  /\ log (snd (call_endpoint_with_retry cfg features max_retries w))
     = (log w
        ++ flat_map (fun a => [the_call cfg (csv_of features); Sleep (2 ^ a)])
             (range (Z.of_nat j))
        ++ [the_call cfg (csv_of features)])%list.
Proof.
  intros Hc Hj Hfail Hr Hfast.
  rewrite call_endpoint_with_retry_loop_from.
  destruct (loop_from_after_failures (csv_of features) max_retries c j Hc 0%nat w)
    as (w' & Hloop & Hlog & Hrem & Hclk); [lia | exact Hfail |].
  change (Z.of_nat 0) with 0 in Hloop. rewrite Hloop. cbn [Nat.add].
  rewrite (loop_from_step cfg (csv_of features) max_retries (Z.of_nat j) w') by lia.
  assert (Hr' : remote w' 0%nat = Responds r)
    by (rewrite Hrem, Nat.add_0_r; exact Hr).
  rewrite (attempt_body_responds cfg _ max_retries (Z.of_nat j) w' c r Hc Hr').
  assert (Hcond : float_gt (elapsed_in w') lit_5_0
                  && (Z.of_nat j <? max_retries - 1) = false).
  { unfold elapsed_in. rewrite !Hclk, Nat.add_0_r, Nat.add_1_r.
    destruct Hfast as [Hf|Hlast].
    - rewrite Hf. reflexivity.
    - rewrite Hlast, Z.ltb_irrefl. apply andb_false_r. }
  rewrite Hcond. cbn [fst snd]. split; [reflexivity|].
  cbn. rewrite Hlog, range_of_nat, <- app_assoc. reflexivity.
Qed.

(** X9.  If every call but the last raises a retryable error and the last
    call raises [e], [call_endpoint_with_retry] makes all [max_retries]
    calls, raises what the final attempt raises for [e], and pauses for
    [2 ** (max_retries - 1) - 1] in total: the bound of X4 is reached. *)
Theorem persistent_failures_use_every_attempt features max_retries w c e :
  runtime cfg = Some c ->
  1 <= max_retries ->
  (forall i, Z.of_nat i < max_retries - 1 ->
             exists e', remote w i = Fails e' /\ retryable e' = true) ->
  remote w (Z.to_nat (max_retries - 1)) = Fails e ->
  fst (call_endpoint_with_retry cfg features max_retries w)
    = Raise (raised_for e)
  /\ exists l,
       log (snd (call_endpoint_with_retry cfg features max_retries w))
         = (log w ++ l)%list
       /\ l = (flat_map
                 (fun a => [the_call cfg (csv_of features); Sleep (2 ^ a)])
                 (range (max_retries - 1))
               ++ [the_call cfg (csv_of features)])%list
       /\ pause_time l = 2 ^ (max_retries - 1) - 1.
Proof.
  intros Hc Hn Hfail He.
  set (j := Z.to_nat (max_retries - 1)) in *.
  assert (Hj : Z.of_nat j = max_retries - 1) by (unfold j; lia).
  rewrite <- Hj, range_of_nat.
  rewrite call_endpoint_with_retry_loop_from.
  destruct (loop_from_after_failures (csv_of features) max_retries c j Hc 0%nat w)
    as (w' & Hloop & Hlog & Hrem & Hclk);
    [lia | intros i Hi; apply Hfail; lia |].
  change (Z.of_nat 0) with 0 in Hloop. rewrite Hloop. cbn [Nat.add].
  rewrite (loop_from_step cfg (csv_of features) max_retries (Z.of_nat j) w') by lia.
  assert (He' : remote w' 0%nat = Fails e)
    by (rewrite Hrem, Nat.add_0_r; exact He).
  rewrite Hj.
  rewrite (attempt_body_last_failure cfg _ max_retries w' c e Hc He').
  cbn [fst snd]. split; [reflexivity|].
  eexists. split; [|split; [reflexivity|]].
  - cbn. rewrite Hlog, <- app_assoc. reflexivity.
  - rewrite pause_time_app, pause_time_backoff, Hj.
    change (pause_time [the_call cfg (csv_of features)]) with 0. lia.
Qed.

(** X10.  If every call but the last responds with [elapsed > 5.0] and the
    last call responds, [call_endpoint_with_retry] makes all [max_retries]
    calls, with a pause of 1 after each but the last, and returns the last
    response, whatever its latency. *)
Theorem slow_endpoint_uses_every_attempt features max_retries w c r :
  runtime cfg = Some c ->
  1 <= max_retries ->
  (forall i, Z.of_nat i < max_retries - 1 ->
             (exists r', remote w i = Responds r')
             /\ float_gt (float_sub (clock w (2 * i + 1)%nat)
                                    (clock w (2 * i)%nat)) lit_5_0 = true) ->
  remote w (Z.to_nat (max_retries - 1)) = Responds r ->
  fst (call_endpoint_with_retry cfg features max_retries w) = Return r
  /\ log (snd (call_endpoint_with_retry cfg features max_retries w))
     = (log w
        ++ flat_map (fun _ => [the_call cfg (csv_of features); Sleep 1])
             (seq 0 (Z.to_nat (max_retries - 1)))
        ++ [the_call cfg (csv_of features)])%list.
Proof.
  intros Hc Hn Hslow Hr.
  set (j := Z.to_nat (max_retries - 1)) in *.
  assert (Hj : Z.of_nat j = max_retries - 1) by (unfold j; lia).
  rewrite call_endpoint_with_retry_loop_from.
  destruct (loop_from_after_slow (csv_of features) max_retries c j Hc 0%nat w)
    as (w' & Hloop & Hlog & Hrem);
    [lia | intros i Hi; apply Hslow; lia |].
  change (Z.of_nat 0) with 0 in Hloop. rewrite Hloop. cbn [Nat.add].
  rewrite (loop_from_step cfg (csv_of features) max_retries (Z.of_nat j) w') by lia.
  assert (Hr' : remote w' 0%nat = Responds r)
    by (rewrite Hrem, Nat.add_0_r; exact Hr).
  rewrite Hj.
  rewrite (attempt_body_last_response cfg _ max_retries w' c r Hc Hr').
  cbn [fst snd]. split; [reflexivity|].
  cbn. rewrite Hlog, <- app_assoc. reflexivity.
Qed.

End Further.

(** ** The further properties at sample inputs *)


Lemma with_snd {A : Type} (x : result A * world) (a : result A) :
  fst x = a -> x = (a, snd x).
Proof. destruct x as [a' w]. cbn. intros ->. reflexivity. Qed.

Lemma fast_response_returned_at_once_witness :
  float_gt (elapsed_in world_fast) lit_5_0 = false
  /\ @loop_from stub deployed csv17 3 0 world_fast
     = (Return (body_of "0.5"), after_response deployed csv17 world_fast).
Proof.
  split; [vm_compute; reflexivity|].
  exact (proj1 (@fast_response_returned_at_once stub deployed csv17 3 0
                  world_fast _ (body_of "0.5")
                  eq_refl ltac:(lia) eq_refl ltac:(vm_compute; reflexivity))).
Defined.

Lemma model_error_policy_witness :
  @loop_from stub deployed csv17 3 0 world_model_errors
    = @loop_from stub deployed csv17 3 1
        (slept 1 (after_failure deployed csv17 world_model_errors))
  /\ @loop_from stub deployed csv17 3 2 world_model_errors
     = (Raise (HTTPException 503 (DetailStr "Endpoint error: ModelError")),
        after_failure deployed csv17 world_model_errors).
Proof.
  split.
  - exact (@model_error_policy stub deployed csv17 3 0 world_model_errors
             _ _ eq_refl ltac:(lia) eq_refl).
  - exact (@model_error_policy stub deployed csv17 3 2 world_model_errors
             _ _ eq_refl ltac:(lia) eq_refl).
Defined.


Lemma backoff_is_bounded_witness :
  exists l,
    log (snd (@call_endpoint_with_retry stub deployed (features request17) 3
                world_timeouts)) = l
    /\ (List.length (pauses l) <= 2)%nat
    /\ Forall (fun s => s = 1 \/ exists j, 0 <= j < 2 /\ s = 2 ^ j) (pauses l)
    /\ pause_time l <= 3.
Proof.
  exact (@backoff_is_bounded stub deployed (features request17) 3
           world_timeouts ltac:(lia)).
Defined.

Lemma returned_response_is_last_call_witness :
  exists j,
    (j < 3)%nat
    /\ remote world_flaky j = Responds (body_of " 0.85 ")
    /\ network_calls
         (log (snd (@call_endpoint_with_retry stub deployed (features request17)
                      3 world_flaky)))
       = (0 + S j)%nat.
Proof.
  exact (@returned_response_is_last_call stub deployed (features request17) 3
           world_flaky (body_of " 0.85 ")
           _ (with_snd _ _ ltac:(vm_compute; reflexivity))).
Defined.

Lemma no_client_no_call_witness :
  fst (@call_endpoint_with_retry stub no_client (features request17) 3 world_slow)
    = Raise (HTTPException 500
               (DetailStr "Unexpected error: 'NoneType' object has no attribute 'invoke_endpoint'"))
  /\ log (snd (@call_endpoint_with_retry stub no_client (features request17) 3
                 world_slow))
     = [Sleep 1; Sleep 2].
Proof.
  exact (@no_client_no_call stub no_client (features request17) 3 world_slow
           eq_refl ltac:(lia)).
Defined.

Lemma calls_and_pauses_alternate_witness :
  exists ps,
    (List.length ps <= 2)%nat
    /\ log (snd (@call_endpoint_with_retry stub deployed (features request17) 3
                   world_flaky))
       = (flat_map (fun s => [the_call deployed csv17; Sleep s]) ps
          ++ [the_call deployed csv17])%list.
Proof.
  exact (@calls_and_pauses_alternate stub deployed (features request17) 3
           world_flaky _ eq_refl ltac:(lia)).
Defined.

Lemma prediction_comes_from_last_call_witness :
  List.length (features request17) = 17%nat
  /\ runtime deployed <> None
  /\ exists j r,
       (j < 3)%nat
       /\ remote world_flaky j = Responds r
       /\ @body_float stub r = inr lit_0_85
       /\ "high" = confidence_level lit_0_85
       /\ network_calls
            (log (snd (@predict stub deployed request17 world_flaky)))
          = (0 + S j)%nat.
Proof.
  exact (@prediction_comes_from_last_call stub deployed request17 world_flaky
           {| prediction := lit_0_85; confidence := "high" |}
           _ (with_snd _ _ ltac:(vm_compute; reflexivity))).
Defined.

Lemma confidence_level_monotone_witness :
  float_le lit_0_5 lit_0_85 = true
  /\ label_rank (confidence_level lit_0_5)
     <= label_rank (confidence_level lit_0_85).
Proof.
  assert (H : float_le lit_0_5 lit_0_85 = true) by (vm_compute; reflexivity).
  split; [exact H|].
  exact (confidence_level_monotone lit_0_5 lit_0_85 H).
Defined.

Lemma stub_floats_have_no_comma x : count_char "," (@str_float stub x) = 0%nat.
Proof. cbn. unfold Stub.of_float. destruct (SFeqb x lit_0_5); reflexivity. Defined.

Lemma csv_field_count_witness :
  S (count_char "," (@csv_of stub (features request17))) = 17%nat.
Proof.
  exact (@csv_field_count stub (features request17)
           stub_floats_have_no_comma ltac:(discriminate)).
Defined.

Lemma recovery_after_transient_failures_witness :
  fst (@call_endpoint_with_retry stub deployed (features request17) 3 world_flaky)
    = Return (body_of " 0.85 ")
  /\ log (snd (@call_endpoint_with_retry stub deployed (features request17) 3
                 world_flaky))
     = [the_call deployed csv17; Sleep 1; the_call deployed csv17; Sleep 2;
        the_call deployed csv17].
Proof.
  refine (@recovery_after_transient_failures stub deployed (features request17) 3
            world_flaky _ 2%nat (body_of " 0.85 ")
            eq_refl ltac:(lia) _ eq_refl
            (or_intror eq_refl)).
  intros i Hi. exists model_error.
  destruct i as [|[|i]]; [split; reflexivity | split; reflexivity | lia].
Defined.

Lemma persistent_failures_use_every_attempt_witness :
  fst (@call_endpoint_with_retry stub deployed (features request17) 3
         world_timeouts)
    = Raise (HTTPException 500
               (DetailStr "Unexpected error: Read timeout on endpoint URL"))
  /\ exists l,
       log (snd (@call_endpoint_with_retry stub deployed (features request17) 3
                   world_timeouts)) = l
       /\ l = [the_call deployed csv17; Sleep 1; the_call deployed csv17;
               Sleep 2; the_call deployed csv17]
       /\ pause_time l = 3.
Proof.
  refine (@persistent_failures_use_every_attempt stub deployed
            (features request17) 3 world_timeouts _ timeout_error
            eq_refl ltac:(lia) _ eq_refl).
  intros i Hi. exists timeout_error.
  destruct i as [|[|i]]; [split; reflexivity | split; reflexivity | lia].
Defined.

Lemma slow_endpoint_uses_every_attempt_witness :
  fst (@call_endpoint_with_retry stub deployed (features request17) 3 world_slow)
    = Return (body_of "0.85")
  /\ log (snd (@call_endpoint_with_retry stub deployed (features request17) 3
                 world_slow))
     = [the_call deployed csv17; Sleep 1; the_call deployed csv17; Sleep 1;
        the_call deployed csv17].
Proof.
  refine (@slow_endpoint_uses_every_attempt stub deployed (features request17) 3
            world_slow _ (body_of "0.85") eq_refl ltac:(lia) _ eq_refl).
  intros i Hi.
  destruct i as [|[|i]]; [| |lia];
    (split; [eexists; reflexivity | vm_compute; reflexivity]).
Defined.
